(** * DocuMentor front end: the HTTP clients and the conversation handlers

    A shallow embedding of

    - [src/services/api.ts]       the class [DocuMentorAPI] ([ask], [askStream]),
    - the [apiRequest] client     ([DocuMentorApiError], [apiRequest], [api.ask]),
    - [components/ChatInput.tsx]  ([handleSubmit]),
    - the [ChatInterface] and [WelcomeScreen] submit handlers,
    - the [DocuMentorLayout] components ([handleSendMessage], [handleClearChat]).

    JavaScript strings are modelled by [string]; one [ascii] stands for one
    code unit below U+0100.  A value read from a JSON text is a
    [json_value], in which a number is the exact rational its literal
    denotes; a Number the code computes with is an IEEE 754 binary64 value
    ([JsNumber.number], over the Standard Library's [SpecFloat]).  The
    interfaces of the sources are erased when the code runs, so a handler
    reads the properties of whatever value the response body is, and a read
    that throws is modelled as such.  What the browser provides
    ([TextDecoder.decode], [JSON.parse], [Number] printing and the reading
    of a value as a Number, the callback handed to [askStream]) enters as a
    [Variable] of the section that uses it, so every general theorem holds
    for any such function; [JSON_parse] below is a concrete reader of the
    JSON grammar used where a statement needs to run on explicit text. *)

From Stdlib Require Import String Ascii List ZArith QArith Qround Bool Lia.
From Stdlib Require Import Numbers.DecimalString Numbers.DecimalZ.
From Stdlib Require Import Floats.SpecFloat.
Import ListNotations.

#[local] Set Warnings "-register-all".
Close Scope Q_scope.
Local Open Scope string_scope.
Local Open Scope list_scope.

(* ------------------------------------------------------------------ *)
(** ** String.prototype: the methods the sources call *)

Module JsString.

(** [s.startsWith(p)] *)
Definition startsWith (p s : string) : bool := String.prefix p s.

(** [s.slice(n)] for [0 <= n]: the text from index [n] to the end, empty
    when [n] is past the end. *)
Fixpoint slice (n : nat) (s : string) : string :=
  match n, s with
  | O, _ => s
  | S _, EmptyString => EmptyString
  | S n', String _ r => slice n' r
  end.

(** [s.split(sep)] for a separator of one code unit.  The result is never
    empty: [''.split('\n')] is [['']]. *)
Fixpoint split (sep : ascii) (s : string) : list string :=
  match s with
  | EmptyString => [EmptyString]
  | String c r =>
      if Ascii.eqb c sep then EmptyString :: split sep r
      else match split sep r with
           | h :: t => String c h :: t
           | [] => [String c EmptyString]
           end
  end.

(** [s.includes(sub)] *)
Fixpoint includes (sub s : string) : bool :=
  String.prefix sub s
  || match s with
     | EmptyString => false
     | String _ r => includes sub r
     end.

(** White space and line terminators of ECMAScript among the code units
    below U+0100: TAB, LF, VT, FF, CR, SP and NBSP. *)
Definition is_whitespace (c : ascii) : bool :=
  let n := nat_of_ascii c in
  (Nat.leb 9 n && Nat.leb n 13) || Nat.eqb n 32 || Nat.eqb n 160.

Fixpoint trimStart (s : string) : string :=
  match s with
  | EmptyString => EmptyString
  | String c r => if is_whitespace c then trimStart r else s
  end.

Fixpoint trimEnd (s : string) : string :=
  match s with
  | EmptyString => EmptyString
  | String c r =>
      match trimEnd r with
      | EmptyString => if is_whitespace c then EmptyString else String c EmptyString
      | r' => String c r'
      end
  end.

(** [s.trim()] *)
Definition trim (s : string) : string := trimEnd (trimStart s).

(** Truthiness of a string: [!s] is [true] exactly for the empty string. *)
Definition is_empty (s : string) : bool :=
  match s with EmptyString => true | _ => false end.

(** A template literal applied to an integer: its decimal digits. *)
Definition of_Z (z : Z) : string := NilZero.string_of_int (Z.to_int z).

(** A text that is empty, or white space only. *)
Definition blank (s : string) : Prop :=
  forall c, In c (list_ascii_of_string s) -> is_whitespace c = true.

End JsString.

(* ------------------------------------------------------------------ *)
(** ** Numbers: IEEE 754 binary64 *)

Module JsNumber.

(** A Number.  [S754_finite s m e] is the number [m * 2^e], negative when
    [s] holds. *)
Definition number : Type := spec_float.

Definition prec : Z := 53.
Definition emax : Z := 1024.

(** The Number of an integer, as an integer literal of the sources or a
    reading of [Date.now()] gives it: the integer itself up to 2^53, and
    the nearest double beyond. *)
Definition of_Z (z : Z) : number := binary_normalize prec emax z 0 false.

(** An integer of any size as an operand. *)
Definition whole (z : Z) : spec_float :=
  match z with
  | Z0 => S754_zero false
  | Zpos p => S754_finite false p 0
  | Zneg p => S754_finite true p 0
  end.

(** The Number [JSON.parse] makes of a number literal: the double nearest
    to the rational the literal denotes, the even one on a tie, an infinity
    beyond the largest double and a zero below the smallest.  (A rational
    has one zero: the literal [-0] is read as [+0] here.) *)
Definition of_literal (q : Q) : number :=
  SFdiv prec emax (whole (Qnum q)) (whole (Zpos (Qden q))).

(** [x * y], [x - y] and [x / y] *)
Definition multiply (x y : number) : number := SFmul prec emax x y.
Definition subtract (x y : number) : number := SFsub prec emax x y.
Definition divide (x y : number) : number := SFdiv prec emax x y.

Definition is_zero (x : number) : bool :=
  match x with S754_zero _ => true | _ => false end.

(** [Math.round(x)]: [floor(x + 0.5)] computed on the exact value of [x],
    with the sign of [x] on a zero result; [NaN], the infinities and the
    zeros are returned as they are, and so is a finite number without
    fraction bits. *)
Definition Math_round (x : number) : number :=
  match x with
  | S754_finite s m e =>
      if (0 <=? e)%Z then x
      else
        let n := (((if s then Z.neg m else Z.pos m) * 2 + 2 ^ (- e)) / 2 ^ (1 - e))%Z in
        if (n =? 0)%Z then S754_zero s else of_Z n
  | _ => x
  end.

End JsNumber.

(* ------------------------------------------------------------------ *)
(** ** JSON values and [JSON.parse] *)

Module Json.

Inductive json_value : Type :=
| JNull
| JBool (b : bool)
| JNumber (q : Q)
| JString (s : string)
| JArray (elems : list json_value)
| JObject (fields : list (string * json_value)).

(** Property read [v[k]] on an object literal read by [JSON.parse]: a key
    written twice keeps its last value; [None] is [undefined]. *)
Fixpoint lookup (k : string) (fields : list (string * json_value)) : option json_value :=
  match fields with
  | [] => None
  | (k', v) :: rest =>
      match lookup k rest with
      | Some w => Some w
      | None => if String.eqb k k' then Some v else None
      end
  end.

(** ToBoolean; a number literal is falsy when the Number it is read as is
    a zero. *)
Definition truthy (v : json_value) : bool :=
  match v with
  | JNull => false
  | JBool b => b
  | JNumber q => negb (JsNumber.is_zero (JsNumber.of_literal q))
  | JString s => negb (JsString.is_empty s)
  | JArray _ | JObject _ => true
  end.

(** *** The reader *)

(** The double quote, U+0022. *)
Definition quote : ascii := ascii_of_nat 34.

Definition is_ws (c : ascii) : bool :=
  let n := nat_of_ascii c in
  Nat.eqb n 32 || Nat.eqb n 9 || Nat.eqb n 10 || Nat.eqb n 13.

Fixpoint skip_ws (s : string) : string :=
  match s with
  | String c r => if is_ws c then skip_ws r else s
  | EmptyString => EmptyString
  end.

Definition digit (c : ascii) : option Z :=
  let n := nat_of_ascii c in
  if Nat.leb 48 n && Nat.leb n 57 then Some (Z.of_nat (n - 48)) else None.

Definition hex_digit (c : ascii) : option nat :=
  let n := nat_of_ascii c in
  if Nat.leb 48 n && Nat.leb n 57 then Some (n - 48)
  else if Nat.leb 65 n && Nat.leb n 70 then Some (n - 55)
  else if Nat.leb 97 n && Nat.leb n 102 then Some (n - 87)
  else None.

(** Reads the longest run of digits: its value on top of [acc], how many
    digits were read, and the rest. *)
Fixpoint digits (s : string) (acc : Z) (count : nat) : Z * nat * string :=
  match s with
  | String c r =>
      match digit c with
      | Some d => digits r (acc * 10 + d)%Z (S count)
      | None => (acc, count, s)
      end
  | EmptyString => (acc, count, s)
  end.

(** [m * 10^e] as a reduced fraction. *)
Definition decimal (m e : Z) : Q :=
  if (0 <=? e)%Z then Qmake (m * 10 ^ e) 1
  else Qred (Qmake m (Z.to_pos (10 ^ (- e)))).

(** A number: an optional minus sign; then a single zero, or a nonzero
    digit and more digits; then optionally a point and one digit or more;
    then optionally [e] or [E], a sign and one digit or more.  The result
    is the rational the literal denotes; [JsNumber.of_literal] rounds it to
    the Number [JSON.parse] returns. *)
Definition parse_number (s : string) : option (Q * string) :=
  let (neg, s1) := match s with
                   | String "-" r => (true, r)
                   | _ => (false, s)
                   end in
  let int_part :=
    match s1 with
    | String "0" r => Some (0%Z, r)
    | _ => let '(v, n, r) := digits s1 0%Z 0 in
           match n with O => None | S _ => Some (v, r) end
    end in
  match int_part with
  | None => None
  | Some (i, s2) =>
      let frac_part :=
        match s2 with
        | String "." r =>
            let '(v, n, r') := digits r i 0 in
            match n with O => None | S _ => Some (v, Z.of_nat n, r') end
        | _ => Some (i, 0%Z, s2)
        end in
      match frac_part with
      | None => None
      | Some (m, scale, s3) =>
          let exp_part :=
            match s3 with
            | String c r =>
                if Ascii.eqb c "e" || Ascii.eqb c "E" then
                  let (eneg, r1) := match r with
                                    | String "-" r' => (true, r')
                                    | String "+" r' => (false, r')
                                    | _ => (false, r)
                                    end in
                  let '(v, n, r2) := digits r1 0%Z 0 in
                  match n with
                  | O => None
                  | S _ => Some ((if eneg then - v else v)%Z, r2)
                  end
                else Some (0%Z, s3)
            | EmptyString => Some (0%Z, s3)
            end in
          match exp_part with
          | None => None
          | Some (e, s4) =>
              Some (decimal (if neg then - m else m)%Z (e - scale)%Z, s4)
          end
      end
  end.

(** The characters after an opening quote, up to the closing one.  A code
    unit written [\uXXXX] is read when it is below U+0100; a text with a
    code unit above, which [string] cannot hold, is not read. *)
Fixpoint parse_chars (s : string) : option (string * string) :=
  match s with
  | EmptyString => None
  | String c r =>
      if Ascii.eqb c quote then Some (EmptyString, r)
      else if Ascii.eqb c "\" then
        match r with
        | String e r' =>
            let simple (x : ascii) :=
              match parse_chars r' with
              | Some (t, rest) => Some (String x t, rest)
              | None => None
              end in
            if Ascii.eqb e quote then simple quote
            else if Ascii.eqb e "\" then simple "\"%char
            else if Ascii.eqb e "/" then simple "/"%char
            else if Ascii.eqb e "b" then simple (ascii_of_nat 8)
            else if Ascii.eqb e "f" then simple (ascii_of_nat 12)
            else if Ascii.eqb e "n" then simple (ascii_of_nat 10)
            else if Ascii.eqb e "r" then simple (ascii_of_nat 13)
            else if Ascii.eqb e "t" then simple (ascii_of_nat 9)
            else if Ascii.eqb e "u" then
              match r' with
              | String h1 (String h2 (String h3 (String h4 r''))) =>
                  match hex_digit h1, hex_digit h2, hex_digit h3, hex_digit h4 with
                  | Some 0, Some 0, Some a, Some b =>
                      match parse_chars r'' with
                      | Some (t, rest) => Some (String (ascii_of_nat (16 * a + b)) t, rest)
                      | None => None
                      end
                  | _, _, _, _ => None
                  end
              | _ => None
              end
            else None
        | EmptyString => None
        end
      else if Nat.ltb (nat_of_ascii c) 32 then None
      else match parse_chars r with
           | Some (t, rest) => Some (String c t, rest)
           | None => None
           end
  end.

Definition expect (lit : string) (v : json_value) (s : string) : option (json_value * string) :=
  if String.prefix lit s then Some (v, JsString.slice (String.length lit) s) else None.

Fixpoint parse_value (fuel : nat) (s : string) : option (json_value * string) :=
  match fuel with
  | O => None
  | S fuel' =>
      match skip_ws s with
      | EmptyString => None
      | String c r as s' =>
          if Ascii.eqb c "{" then
            match skip_ws r with
            | String "}" r' => Some (JObject [], r')
            | r1 => match parse_members fuel' r1 with
                    | Some (fs, rest) => Some (JObject fs, rest)
                    | None => None
                    end
            end
          else if Ascii.eqb c "[" then
            match skip_ws r with
            | String "]" r' => Some (JArray [], r')
            | r1 => match parse_elements fuel' r1 with
                    | Some (vs, rest) => Some (JArray vs, rest)
                    | None => None
                    end
            end
          else if Ascii.eqb c quote then
            match parse_chars r with
            | Some (t, rest) => Some (JString t, rest)
            | None => None
            end
          else if Ascii.eqb c "t" then expect "true" (JBool true) s'
          else if Ascii.eqb c "f" then expect "false" (JBool false) s'
          else if Ascii.eqb c "n" then expect "null" JNull s'
          else match parse_number s' with
               | Some (q, rest) => Some (JNumber q, rest)
               | None => None
               end
      end
  end

with parse_elements (fuel : nat) (s : string) : option (list json_value * string) :=
  match fuel with
  | O => None
  | S fuel' =>
      match parse_value fuel' s with
      | None => None
      | Some (v, r) =>
          match skip_ws r with
          | String "]" r' => Some ([v], r')
          | String "," r' =>
              match parse_elements fuel' r' with
              | Some (vs, rest) => Some (v :: vs, rest)
              | None => None
              end
          | _ => None
          end
      end
  end

with parse_members (fuel : nat) (s : string) : option (list (string * json_value) * string) :=
  match fuel with
  | O => None
  | S fuel' =>
      match skip_ws s with
      | String c r =>
          if Ascii.eqb c quote then
            match parse_chars r with
            | None => None
            | Some (k, r1) =>
                match skip_ws r1 with
                | String ":" r2 =>
                    match parse_value fuel' r2 with
                    | None => None
                    | Some (v, r3) =>
                        match skip_ws r3 with
                        | String "}" r' => Some ([(k, v)], r')
                        | String "," r' =>
                            match parse_members fuel' r' with
                            | Some (fs, rest) => Some ((k, v) :: fs, rest)
                            | None => None
                            end
                        | _ => None
                        end
                    end
                | _ => None
                end
            end
          else None
      | EmptyString => None
      end
  end.

(** [JSON.parse(text)]: one value, white space around it, nothing else.
    [None] stands for the [SyntaxError] it throws.  A value, an element
    list or a member list each start on a character of their own, so
    twice the length of the text bounds the depth of the calls. *)
Definition JSON_parse (text : string) : option json_value :=
  match parse_value (2 * String.length text + 2) text with
  | Some (v, rest) =>
      match skip_ws rest with
      | EmptyString => Some v
      | _ => None
      end
  | None => None
  end.

End Json.

Import Json.

(* ------------------------------------------------------------------ *)
(** ** What the run time provides: errors, [fetch], responses, effects *)

Module Js.

Inductive error_class := Error | TypeError | SyntaxError.

Record error := { class : error_class; message : string }.

(** How a call, or an awaited promise, ends. *)
Inductive completion (A : Type) : Type :=
| Returns (a : A)
| Throws (e : error).
Arguments Returns {A} a.
Arguments Throws {A} e.

(** The second argument of [fetch], as the clients build it.  [body] is
    the value handed to [JSON.stringify]. *)
Record Request := {
  url : string;
  method : string;
  headers : list (string * string);
  body : option json_value
}.

(** A [Response] whose body is read with [response.json()]: [json] is how
    that read ends. *)
Record Response := {
  status : Z;
  statusText : string;
  json : completion json_value
}.

(** [response.ok]: the status is in the range 200-299. *)
Definition ok (r : Response) : bool :=
  (200 <=? status r)%Z && (status r <=? 299)%Z.

(** How [await fetch(...)] ends: rejected (no response was received), or
    resolved with a response of any status. *)
Inductive fetch_outcome :=
| Rejects (e : error)
| Resolves (r : Response).

(** A [ReadableStream] body that ends: the chunks its reader returns one
    [read()] after the other, then [done], or a failed read. *)
Inductive stream_end := Done | Errored (e : error).

Record ReadableStream := {
  reads : list (list Byte.byte);
  ending : stream_end
}.

Record StreamResponse := {
  stream_status : Z;
  stream_body : option ReadableStream
}.

Definition stream_ok (r : StreamResponse) : bool :=
  (200 <=? stream_status r)%Z && (stream_status r <=? 299)%Z.

Inductive stream_fetch_outcome :=
| StreamRejects (e : error)
| StreamResolves (r : StreamResponse).

(** The argument of [toast(...)]. *)
Record toast := {
  title : string;
  description : string;
  variant : option string
}.

(** What a handler does to the world, in the order it does it.  A call of
    [console.error] is recorded by its first argument, the label; the value
    logged after the label is not part of the trace. *)
Inductive effect :=
| Fetch (req : Request)
| ConsoleError (label : string)
| Toast (t : toast)
| OnChunk (data : json_value).

Definition is_fetch (e : effect) : bool :=
  match e with Fetch _ => true | _ => false end.

(** The values handed to the [askStream] callback, in order. *)
Fixpoint callbacks (trace : list effect) : list json_value :=
  match trace with
  | [] => []
  | OnChunk data :: rest => data :: callbacks rest
  | _ :: rest => callbacks rest
  end.

(** [JSON.stringify] of an object literal: a property whose value is
    [undefined] is left out. *)
Fixpoint JSON_stringify (props : list (string * option json_value)) : list (string * json_value) :=
  match props with
  | [] => []
  | (k, Some v) :: rest => (k, v) :: JSON_stringify rest
  | (_, None) :: rest => JSON_stringify rest
  end.

(** A response whose body is the given text. *)
Definition response_of_text (st : Z) (txt : string) (body_text : string) : Response :=
  {| status := st;
     statusText := txt;
     json := match Json.JSON_parse body_text with
             | Some v => Returns v
             | None => Throws {| class := SyntaxError; message := "Unexpected end of JSON input" |}
             end |}.

(** [v[k]] for a value [v] that is not [null], and a name [k] that no
    prototype has ([answer], [sources], [confidence], [response_time],
    [conversation_id]): the property of an object that has it, and
    [undefined] otherwise. *)
Definition property (k : string) (v : json_value) : option json_value :=
  match v with
  | JObject fields => lookup k fields
  | _ => None
  end.

(** [v[k]] for any value read from a JSON text: a [TypeError] on [null]. *)
Definition get (k : string) (v : json_value) : completion (option json_value) :=
  match v with
  | JNull => Throws {| class := TypeError;
                       message := "Cannot read properties of null (reading '" ++ k ++ "')" |}
  | _ => Returns (property k v)
  end.

End Js.

Import Js.

(* ------------------------------------------------------------------ *)
(** ** src/services/api.ts: [class DocuMentorAPI] *)

Module Services.

Definition API_BASE_URL : string := "http://localhost:8000".

Definition ask_request (question : string) (sourceFilter : option string) : Request :=
  {| url := API_BASE_URL ++ "/ask";
     method := "POST";
     headers := [("Content-Type", "application/json")];
     body := Some (JObject (JSON_stringify
               [("question", Some (JString question));
                ("source_filter", option_map JString sourceFilter);
                ("k", Some (JNumber (5 # 1)));
                ("temperature", Some (JNumber (1 # 10)));
                ("max_tokens", Some (JNumber (1024 # 1)))])) |}.

Section Ask.
(** [AskResponse], and the unchecked cast of [return await response.json()]. *)
Variable T : Type.
Variable as_T : json_value -> T.

(** [async ask(question, sourceFilter)] *)
Definition ask (question : string) (sourceFilter : option string)
           (net : fetch_outcome) : list effect * completion T :=
  let request := ask_request question sourceFilter in
  let rethrow (e : error) :=
    ([Fetch request; ConsoleError "Error calling ask API:"], Throws e) in
  match net with
  | Rejects e => rethrow e
  | Resolves response =>
      if negb (ok response) then
        rethrow {| class := Error;
                   message := "API error: " ++ JsString.of_Z (status response) |}
      else
        match json response with
        | Returns data => ([Fetch request], Returns (as_T data))
        | Throws e => rethrow e
        end
  end.
End Ask.

Definition askStream_request (question : string) (sourceFilter : option string) : Request :=
  {| url := API_BASE_URL ++ "/stream-ask";
     method := "POST";
     headers := [("Content-Type", "application/json")];
     body := Some (JObject (JSON_stringify
               [("question", Some (JString question));
                ("source_filter", option_map JString sourceFilter);
                ("k", Some (JNumber (5 # 1)));
                ("temperature", Some (JNumber (1 # 10)))])) |}.

Section AskStream.
(** [new TextDecoder().decode(value)] *)
Variable decode : list Byte.byte -> string.
(** [JSON.parse]; [None] when it throws. *)
Variable JSON_parse : string -> option json_value.
(** The caller's [onChunk]: [true] when the call returns, [false] when it
    throws. *)
Variable onChunk : json_value -> bool.

Definition newline : ascii := ascii_of_nat 10.

(** The body of [for (const line of lines)] for one line.  The callback
    runs inside the [try], so what it throws is caught and logged like a
    failed parse. *)
Definition on_line (line : string) : list effect :=
  if JsString.startsWith "data: " line then
    match JSON_parse (JsString.slice 6 line) with
    | Some data =>
        OnChunk data :: (if onChunk data then [] else [ConsoleError "Error parsing SSE:"])
    | None => [ConsoleError "Error parsing SSE:"]
    end
  else [].

Fixpoint for_lines (lines : list string) : list effect :=
  match lines with
  | [] => []
  | line :: rest => on_line line ++ for_lines rest
  end.

(** [while (true) { const { done, value } = await reader.read(); ... }] *)
Fixpoint read_loop (pending : list (list Byte.byte)) (last : stream_end)
  : list effect * completion unit :=
  match pending with
  | [] =>
      match last with
      | Done => ([], Returns tt)
      | Errored e => ([], Throws e)
      end
  | value :: rest =>
      let chunk := decode value in
      let lines := JsString.split newline chunk in
      let here := for_lines lines in
      let (later, result) := read_loop rest last in
      (here ++ later, result)
  end.

(** [async askStream(question, sourceFilter, onChunk)] *)
Definition askStream (question : string) (sourceFilter : option string)
           (net : stream_fetch_outcome) : list effect * completion unit :=
  let request := askStream_request question sourceFilter in
  match net with
  | StreamRejects e => ([Fetch request], Throws e)
  | StreamResolves response =>
      match stream_ok response, stream_body response with
      | true, Some stream =>
          let (trace, result) := read_loop (reads stream) (ending stream) in
          (Fetch request :: trace, result)
      | _, _ =>
          ([Fetch request],
           Throws {| class := Error;
                     message := "Stream error: " ++ JsString.of_Z (stream_status response) |})
      end
  end.
End AskStream.

(** A decoder for bytes below 0x80, where UTF-8 is one byte per code unit. *)
Definition decode_ascii (value : list Byte.byte) : string := string_of_list_byte value.

(** A stream response with status 200 that delivers the given chunks and
    then ends. *)
Definition ok_stream (chunks : list (list Byte.byte)) : stream_fetch_outcome :=
  StreamResolves {| stream_status := 200;
                    stream_body := Some {| reads := chunks; ending := Done |} |}.

(** The same, for chunks given as text. *)
Definition stream_of (texts : list string) : stream_fetch_outcome :=
  ok_stream (map list_byte_of_string texts).

(** How a stream that ends with [last] makes the read loop end. *)
Definition stream_result (last : stream_end) : completion unit :=
  match last with
  | Done => Returns tt
  | Errored e => Throws e
  end.

Definition search_request (query : string) (k : option Q)
           (sourceFilter : option string) : Request :=
  {| url := API_BASE_URL ++ "/search";
     method := "POST";
     headers := [("Content-Type", "application/json")];
     body := Some (JObject (JSON_stringify
               [("query", Some (JString query));
                ("k", Some (JNumber (match k with Some given => given | None => 10 # 1 end)));
                ("source_filter", option_map JString sourceFilter)])) |}.

(** [fetch(url)] with no second argument. *)
Definition getStats_request : Request :=
  {| url := API_BASE_URL ++ "/stats";
     method := "GET";
     headers := [];
     body := None |}.

Section Search.
(** The payload type, and the unchecked cast of [return await response.json()]. *)
Variable T : Type.
Variable as_T : json_value -> T.

(** What [search] and [getStats] do once the request is built: no [try],
    so nothing is logged. *)
Definition checked (request : Request) (net : fetch_outcome)
  : list effect * completion T :=
  match net with
  | Rejects e => ([Fetch request], Throws e)
  | Resolves response =>
      if negb (ok response) then
        ([Fetch request],
         Throws {| class := Error;
                   message := "API error: " ++ JsString.of_Z (status response) |})
      else
        match json response with
        | Returns data => ([Fetch request], Returns (as_T data))
        | Throws e => ([Fetch request], Throws e)
        end
  end.

(** [async search(query, k = 10, sourceFilter)]; [k] is [None] when the
    caller leaves it out. *)
Definition search (query : string) (k : option Q) (sourceFilter : option string)
           (net : fetch_outcome) : list effect * completion T :=
  checked (search_request query k sourceFilter) net.

(** [async getStats()] *)
Definition getStats (net : fetch_outcome) : list effect * completion T :=
  checked getStats_request net.
End Search.

End Services.

(* ------------------------------------------------------------------ *)
(** ** [URLSearchParams]: the serializer of the URL standard *)

Module URLSearchParams.

Definition hex (n : nat) : ascii :=
  if Nat.ltb n 10 then ascii_of_nat (48 + n) else ascii_of_nat (55 + n).

(** [%XX] for one byte. *)
Definition percent (byte : nat) : string :=
  String "%" (String (hex (Nat.div byte 16)) (String (hex (Nat.modulo byte 16)) EmptyString)).

(** Left as it is: an ASCII letter or digit, and the four marks of the
    form-urlencoded set. *)
Definition unreserved (c : ascii) : bool :=
  let n := nat_of_ascii c in
  (Nat.leb 48 n && Nat.leb n 57) || (Nat.leb 65 n && Nat.leb n 90)
  || (Nat.leb 97 n && Nat.leb n 122)
  || Nat.eqb n 42 || Nat.eqb n 45 || Nat.eqb n 46 || Nat.eqb n 95.

(** One code unit below U+0100: itself, [+] for a space, and otherwise the
    escapes of its UTF-8 bytes (one byte below U+0080, two above). *)
Definition serialize_char (c : ascii) : string :=
  let n := nat_of_ascii c in
  if unreserved c then String c EmptyString
  else if Nat.eqb n 32 then "+"
  else if Nat.ltb n 128 then percent n
  else (percent (192 + Nat.div n 64) ++ percent (128 + Nat.modulo n 64))%string.

Fixpoint serialize (text : string) : string :=
  match text with
  | EmptyString => EmptyString
  | String c rest => (serialize_char c ++ serialize rest)%string
  end.

(** [params.toString()] for the entries of [params] in order. *)
Fixpoint toString (params : list (string * string)) : string :=
  match params with
  | [] => EmptyString
  | [(name, value)] => (serialize name ++ "=" ++ serialize value)%string
  | (name, value) :: rest =>
      (serialize name ++ "=" ++ serialize value ++ "&" ++ toString rest)%string
  end.

End URLSearchParams.

(* ------------------------------------------------------------------ *)
(** ** types/api.ts: the interfaces of the [apiRequest] client *)

Module Types.

(** [conversation_id] is declared a string; the layout fills it with what
    a response named, which is any value of a JSON text. *)
Record AskRequest := {
  question : string;
  source : option string;
  conversation_id : option json_value
}.

(** In a name space of its own: [source] is a property of [AskRequest]
    as well. *)
Module Search.
Record SearchRequest := {
  query : string;
  source : option string;
  limit : option Q
}.
End Search.

End Types.

(* ------------------------------------------------------------------ *)
(** ** lib/api.ts: [DocuMentorApiError], [apiRequest], [api.ask] *)

Module Lib.

Definition API_BASE_URL : string := "http://localhost:8000".

Record DocuMentorApiError := {
  message : string;
  status : Z;
  statusText : string
}.

Record RequestInit := {
  init_method : option string;
  init_headers : option (list (string * string));
  init_body : option json_value
}.

(** [{ headers: { 'Content-Type': ..., ...options.headers }, ...options }]:
    the second spread writes [options.headers] over the merged headers when
    [options] has that key. *)
Definition config (endpoint : string) (options : RequestInit) : Request :=
  {| url := API_BASE_URL ++ endpoint;
     method := match init_method options with Some m => m | None => "GET" end;
     headers := match init_headers options with
                | Some h => h
                | None => [("Content-Type", "application/json")]
                end;
     body := init_body options |}.

(** [errorData.detail]: [undefined] on a value without that property,
    a [TypeError] on [null]. *)
Definition detail (errorData : json_value) : completion (option json_value) :=
  match errorData with
  | JNull => Throws {| class := TypeError;
                       Js.message := "Cannot read properties of null (reading 'detail')" |}
  | JObject fields => Returns (lookup "detail" fields)
  | _ => Returns None
  end.

Definition network_error : DocuMentorApiError :=
  {| message := "Network error: Unable to connect to the server. Please check your connection and try again.";
     status := 0;
     statusText := "Network Error" |}.

Definition unexpected_error : DocuMentorApiError :=
  {| message := "An unexpected error occurred. Please try again.";
     status := 500;
     statusText := "Unknown Error" |}.

(** The outer [catch], for an error that is not a [DocuMentorApiError]. *)
Definition on_caught (error : Js.error) : DocuMentorApiError :=
  match class error with
  | TypeError =>
      if JsString.includes "fetch" (Js.message error) then network_error
      else unexpected_error
  | _ => unexpected_error
  end.

Section ApiRequest.
(** [String(x)] for a number [x]. *)
Variable Number_toString : Q -> string.
(** The payload type, and the unchecked cast of [return data]. *)
Variable T : Type.
Variable as_T : json_value -> T.

(** The string [super(message)] stores for the value it is given. *)
Fixpoint ToString (v : json_value) : string :=
  match v with
  | JNull => "null"
  | JBool true => "true"
  | JBool false => "false"
  | JNumber q => Number_toString q
  | JString s => s
  | JArray elems =>
      String.concat ","
        (map (fun e => match e with JNull => EmptyString | _ => ToString e end) elems)
  | JObject _ => "[object Object]"
  end.

(** [async function apiRequest<T>(endpoint, options)] *)
Definition apiRequest (endpoint : string) (options : RequestInit)
           (net : fetch_outcome) : list effect * (DocuMentorApiError + T) :=
  let request := config endpoint options in
  match net with
  | Rejects error => ([Fetch request], inl (on_caught error))
  | Resolves response =>
      if negb (ok response) then
        let errorMessage :=
          JString ("Request failed: " ++ JsString.of_Z (Js.status response)
                     ++ " " ++ Js.statusText response) in
        let errorMessage :=
          match json response with
          | Returns errorData =>
              match detail errorData with
              | Returns (Some d) => if truthy d then d else errorMessage
              | Returns None => errorMessage
              | Throws _ => errorMessage
              end
          | Throws _ => errorMessage
          end in
        ([Fetch request],
         inl {| message := ToString errorMessage;
                status := Js.status response;
                statusText := Js.statusText response |})
      else
        match json response with
        | Returns data => ([Fetch request], inr (as_T data))
        | Throws error => ([Fetch request], inl (on_caught error))
        end
  end.

(** [api.ask(request)] *)
Definition api_ask (request : Types.AskRequest) (net : fetch_outcome)
  : list effect * (DocuMentorApiError + T) :=
  apiRequest "/ask"
    {| init_method := Some "POST";
       init_headers := None;
       init_body := Some (JObject (JSON_stringify
         [("question", Some (JString (Types.question request)));
          ("source", option_map JString (Types.source request));
          ("conversation_id", Types.conversation_id request)])) |}
    net.
End ApiRequest.

(** The entries of [new URLSearchParams({ query, ...(source && { source }),
    ...(limit && { limit: limit.toString() }) })]: an empty [source] and a
    [limit] of zero are falsy and spread to nothing. *)
Definition search_params (Number_toString : Q -> string)
           (request : Types.Search.SearchRequest) : list (string * string) :=
  [("query", Types.Search.query request)]
    ++ match Types.Search.source request with
       | Some source => if JsString.is_empty source then [] else [("source", source)]
       | None => []
       end
    ++ match Types.Search.limit request with
       | Some limit => if (Qnum limit =? 0)%Z then [] else [("limit", Number_toString limit)]
       | None => []
       end.

Definition no_options : RequestInit :=
  {| init_method := None; init_headers := None; init_body := None |}.

Section ApiMethods.
Variable Number_toString : Q -> string.
Variable T : Type.
Variable as_T : json_value -> T.

(** [api.search(request)] *)
Definition api_search (request : Types.Search.SearchRequest) (net : fetch_outcome)
  : list effect * (DocuMentorApiError + T) :=
  apiRequest Number_toString T as_T
    ("/search?" ++ URLSearchParams.toString (search_params Number_toString request))
    no_options net.

End ApiMethods.



End Lib.

(* ------------------------------------------------------------------ *)
(** ** The submit handlers of the components *)

(** An event handler over a component state [S]: the state after it, and
    what it did. *)
Definition handler (S : Type) : Type := S -> S * list effect.

(** A handler that returns at once. *)
Definition skip {S : Type} : handler S := fun st => (st, []).

(** components/ChatInput.tsx *)
Module ChatInput.

Definition handleSubmit {S : Type} (value : string) (disabled : bool)
           (onSubmit : string -> handler S) : handler S :=
  if JsString.is_empty (JsString.trim value) || disabled then skip
  else onSubmit (JsString.trim value).

(** [const canSubmit = value.trim().length > 0 && !disabled] *)
Definition canSubmit (value : string) (disabled : bool) : bool :=
  Nat.ltb 0 (String.length (JsString.trim value)) && negb disabled.

Record KeyboardEvent := {
  key : string;
  ctrlKey : bool;
  metaKey : bool
}.

(** [handleKeyDown]: whether [e.preventDefault()] was called, and what the
    handler does to the state. *)
Definition handleKeyDown {S : Type} (value : string) (disabled : bool)
           (onSubmit : string -> handler S) (e : KeyboardEvent) : bool * handler S :=
  if String.eqb (key e) "Enter" && (ctrlKey e || metaKey e) then
    (true, handleSubmit value disabled onSubmit)
  else (false, skip).

End ChatInput.

(** components/ChatInterface.tsx; its own state is [inputValue]. *)
Module ChatInterface.

Definition handleSubmit {S : Type} (isLoading : bool)
           (onSendMessage : string -> handler S) (message : string)
  : handler (string * S) :=
  fun '(inputValue, st) =>
    if JsString.is_empty (JsString.trim message) || isLoading then ((inputValue, st), [])
    else
      let inputValue := EmptyString in
      let (st, done) := onSendMessage message st in
      ((inputValue, st), done).

End ChatInterface.

(** components/WelcomeScreen.tsx *)
Module WelcomeScreen.

(** The [question] of each entry of [sampleQuestions]; a click on one calls
    [onSendMessage] with it. *)
Definition sampleQuestions : list string :=
  ["How do I create a basic LangChain chain with OpenAI?";
   "What's the best way to handle authentication in FastAPI?";
   "When should I use useCallback vs useMemo?";
   "How do I set up database relationships in Django?"].

Definition handleSampleQuestion {S : Type} (onSendMessage : string -> handler S)
           (question : string) : handler S :=
  onSendMessage question.

Definition handleSubmit {S : Type} (onSendMessage : string -> handler S)
           (message : string) : handler S :=
  onSendMessage message.

End WelcomeScreen.

(** [String.prototype.toLowerCase] on code units below U+0100: the letters
    A-Z, and the capital letters of U+00C0-U+00DE other than the
    multiplication sign, move up by 32. *)
Module JsCase.

Definition lower_char (c : ascii) : ascii :=
  let n := nat_of_ascii c in
  if (Nat.leb 65 n && Nat.leb n 90)
     || (Nat.leb 192 n && Nat.leb n 222 && negb (Nat.eqb n 215))
  then ascii_of_nat (n + 32) else c.

Fixpoint toLowerCase (s : string) : string :=
  match s with
  | EmptyString => EmptyString
  | String c r => String (lower_char c) (toLowerCase r)
  end.

End JsCase.

(** components/CommandPalette.tsx: [onSearch] is only ever called with one
    of these, never with the text typed into the palette. *)
Module CommandPalette.

Definition recentSearches : list string :=
  ["How to use LangChain with OpenAI";
   "FastAPI authentication setup";
   "React hooks best practices";
   "Django ORM relationships";
   "Node.js async patterns"].


(** An entry of [allItems].  [isSearch] is [false] for a quick action, which
    has no such property. *)
Record Item := {
  id : string;
  title : string;
  description : string;
  icon : string;
  shortcut : string;
  isSearch : bool
}.

(** The UTF-8 bytes of an icon. *)
Definition bytes (codes : list nat) : string :=
  string_of_list_ascii (map ascii_of_nat codes).

Definition quickActions : list Item :=
  [{| id := "new-chat"; title := "New Chat";
      description := "Start a fresh conversation";
      icon := bytes [240; 159; 146; 172]; shortcut := "N"; isSearch := false |};
   {| id := "clear-history"; title := "Clear History";
      description := "Clear all conversation history";
      icon := bytes [240; 159; 151; 145; 239; 184; 143]; shortcut := "C"; isSearch := false |};
   {| id := "export-chat"; title := "Export Chat";
      description := "Export current conversation";
      icon := bytes [240; 159; 147; 164]; shortcut := "E"; isSearch := false |};
   {| id := "settings"; title := "Settings";
      description := "Open application settings";
      icon := bytes [226; 154; 153; 239; 184; 143]; shortcut := "S"; isSearch := false |};
   {| id := "docs"; title := "Documentation";
      description := "View application help";
      icon := bytes [240; 159; 147; 154]; shortcut := "D"; isSearch := false |}].

(** [text.toLowerCase().includes(query.toLowerCase())] *)
Definition matches (query text : string) : bool :=
  JsString.includes (JsCase.toLowerCase query) (JsCase.toLowerCase text).

Definition filteredActions (query : string) : list Item :=
  filter (fun action => matches query (title action) || matches query (description action))
         quickActions.

Definition filteredSearches (query : string) : list string :=
  filter (fun search => matches query search) recentSearches.

Definition search_item (search : string) : Item :=
  {| id := "search-" ++ search;
     title := search;
     description := "Recent search";
     icon := bytes [240; 159; 148; 141];
     shortcut := EmptyString;
     isSearch := true |}.

Definition allItems (query : string) : list Item :=
  filteredActions query ++ map search_item (filteredSearches query).

(** [allItems[selectedIndex]]; [None] is [undefined]. *)
Definition item_at (items : list Item) (selectedIndex : Z) : option Item :=
  if (selectedIndex <? 0)%Z then None else nth_error items (Z.to_nat selectedIndex).

(** What the palette asks of its parent, and what it logs. *)
Inductive output :=
| Search (text : string)
| Close
| ConsoleLog (action : string).

(** The [keydown] listener: whether [e.preventDefault()] was called, the
    selected index after the key, and the calls made. *)
Definition handleKeyDown (isOpen : bool) (query : string) (selectedIndex : Z)
           (key : string) : bool * Z * list output :=
  if negb isOpen then (false, selectedIndex, [])
  else if String.eqb key "ArrowDown" then
    (true, Z.min (selectedIndex + 1) (Z.of_nat (List.length (allItems query)) - 1), [])
  else if String.eqb key "ArrowUp" then
    (true, Z.max (selectedIndex - 1) 0, [])
  else if String.eqb key "Enter" then
    match item_at (allItems query) selectedIndex with
    | Some selectedItem =>
        if isSearch selectedItem then (true, selectedIndex, [Search (title selectedItem); Close])
        else (true, selectedIndex, [ConsoleLog (id selectedItem); Close])
    | None => (true, selectedIndex, [])
    end
  else if String.eqb key "Escape" then (false, selectedIndex, [Close])
  else (false, selectedIndex, []).

(** A click on the [index]-th row of the quick actions, if it is shown. *)
Definition clickAction (query : string) (index : nat) : list output :=
  match nth_error (filteredActions query) index with
  | Some action => [ConsoleLog (id action); Close]
  | None => []
  end.

(** A click on the [index]-th row of the recent searches, if it is shown. *)
Definition clickSearch (query : string) (index : nat) : list output :=
  match nth_error (filteredSearches query) index with
  | Some search => [Search search; Close]
  | None => []
  end.

End CommandPalette.

Inductive Role := user | assistant.

(** A string or [undefined] used as a condition: the string when it is
    truthy. *)
Definition Layout1_present (source : option string) : option string :=
  match source with
  | Some s => if JsString.is_empty s then None else Some s
  | None => None
  end.

(* ------------------------------------------------------------------ *)
(** ** [DocuMentorLayout] over [services/api] *)

Module Layout1.

(** [content], [sources], [confidence] and [responseTime] of an answer
    are filled with what is read from the response, which can be any value:
    [None] is [undefined]. *)
Record Message := {
  id : string;
  content : option json_value;
  role : Role;
  timestamp : Z;
  sources : option json_value;
  confidence : option json_value;
  responseTime : option json_value
}.

Record State := {
  messages : list Message;
  isLoading : bool;
  isSidebarOpen : bool;
  selectedSource : option string;
  isCommandPaletteOpen : bool;
  isDarkMode : bool
}.

Definition setMessages (f : list Message -> list Message) (st : State) : State :=
  {| messages := f (messages st);
     isLoading := isLoading st;
     isSidebarOpen := isSidebarOpen st;
     selectedSource := selectedSource st;
     isCommandPaletteOpen := isCommandPaletteOpen st;
     isDarkMode := isDarkMode st |}.

Definition setIsLoading (b : bool) (st : State) : State :=
  {| messages := messages st;
     isLoading := b;
     isSidebarOpen := isSidebarOpen st;
     selectedSource := selectedSource st;
     isCommandPaletteOpen := isCommandPaletteOpen st;
     isDarkMode := isDarkMode st |}.

(** What [Date.now()] and [new Date()] return, in milliseconds, at each of
    the places where the handler reads them: in the user message, in the
    answer, and in the error message of the [catch] block. *)
Record Clock := {
  now_user : Z;
  date_user : Z;
  now_reply : Z;
  date_reply : Z;
  now_error : Z;
  date_error : Z
}.

Section Handlers.
(** [x.toFixed(2)] for a Number [x]. *)
Variable toFixed2 : JsNumber.number -> string.

(** [const handleSendMessage = async (content) => ...].  [render] is the
    state of the render that made the closure ([isLoading],
    [selectedSource] and [messages] are read from it); [st] is the state
    the updates are applied to; [meanwhile] is what other handlers do to
    the state while the request is awaited.

    The [try] block can throw after [ask] has returned: reading
    [response.answer] throws on a body that is [null], before anything is
    appended, and [response.response_time.toFixed(2)], evaluated for the
    toast of a first send, throws unless [response_time] is a number, after
    the answer was appended.  Either way the [catch] block runs. *)
Definition handleSendMessage (render : State) (clock : Clock)
           (net : fetch_outcome) (meanwhile : State -> State)
           (content : string) : handler State :=
  fun st =>
    if JsString.is_empty (JsString.trim content) || isLoading render then (st, [])
    else
      let userMessage :=
        {| id := "msg-" ++ JsString.of_Z (now_user clock);
           content := Some (JString content);
           role := user;
           timestamp := date_user clock;
           sources := None;
           confidence := None;
           responseTime := None |} in
      let st := setMessages (fun prev => prev ++ [userMessage]) st in
      let st := setIsLoading true st in
      let (called, outcome) :=
        Services.ask json_value (fun data => data) content (selectedSource render) net in
      let st := meanwhile st in
      let caught (st : State) : State * list effect :=
        let errorMessage :=
          {| id := "msg-" ++ JsString.of_Z (now_error clock + 1);
             content := Some (JString "Sorry, I encountered an error while processing your request. Please make sure the backend server is running on http://localhost:8000");
             role := assistant;
             timestamp := date_error clock;
             sources := None;
             confidence := None;
             responseTime := None |} in
        let st := setMessages (fun prev => prev ++ [errorMessage]) st in
        (st,
         [ConsoleError "Error:";
          Toast {| title := "Connection Error";
                   description := "Failed to connect to the backend. Please check if the API server is running.";
                   variant := Some "destructive" |}]) in
      let (st, done) :=
        match outcome with
        | Returns response =>
            match get "answer" response with
            | Returns answer =>
                let aiMessage :=
                  {| id := "msg-" ++ JsString.of_Z (now_reply clock + 1);
                     content := answer;
                     role := assistant;
                     timestamp := date_reply clock;
                     sources := property "sources" response;
                     confidence := property "confidence" response;
                     responseTime := property "response_time" response |} in
                let st := setMessages (fun prev => prev ++ [aiMessage]) st in
                if Nat.eqb (List.length (messages render)) 0 then
                  match property "response_time" response with
                  | Some (JNumber seconds) =>
                      (st,
                       [Toast {| title := "Connected to DocuMentor!";
                                 description :=
                                   "Response received in "
                                     ++ toFixed2 (JsNumber.of_literal seconds) ++ "s";
                                 variant := None |}])
                  | _ => caught st
                  end
                else (st, [])
            | Throws _ => caught st
            end
        | Throws _ => caught st
        end in
      (setIsLoading false st, called ++ done).

(** [const handleClearChat = () => ...] *)
Definition handleClearChat : handler State :=
  fun st =>
    let st := setMessages (fun _ => []) st in
    (st,
     [Toast {| title := "Chat cleared";
               description := "All messages have been removed";
               variant := None |}]).
End Handlers.

Definition setSelectedSource (source : option string) (st : State) : State :=
  {| messages := messages st;
     isLoading := isLoading st;
     isSidebarOpen := isSidebarOpen st;
     selectedSource := source;
     isCommandPaletteOpen := isCommandPaletteOpen st;
     isDarkMode := isDarkMode st |}.

(** [const handleSourceChange = (source) => ...]; the empty string is a
    source that is given and is falsy. *)
Definition handleSourceChange (source : option string) : handler State :=
  fun st =>
    let st := setSelectedSource source st in
    match Layout1_present source with
    | Some name =>
        (st, [Toast {| title := "Source filter applied";
                       description := "Showing results from " ++ name;
                       variant := None |}])
    | None =>
        (st, [Toast {| title := "Source filter removed";
                       description := "Showing results from all sources";
                       variant := None |}])
    end.

End Layout1.

(* ------------------------------------------------------------------ *)
(** ** [DocuMentorLayout] over [lib/api] *)

Module Layout2.

(** [content] and [sources] of an answer are what is read from the
    response, any value; [confidence] and [responseTime] are computed, and
    so Numbers. *)
Record Message := {
  id : string;
  content : option json_value;
  role : Role;
  timestamp : Z;
  sources : option json_value;
  confidence : option JsNumber.number;
  responseTime : option JsNumber.number
}.

(** [conversationId] is [null] ([None]) or what a response named. *)
Record State := {
  messages : list Message;
  isLoading : bool;
  selectedSource : string;
  sidebarCollapsed : bool;
  isDarkMode : bool;
  conversationId : option json_value;
  showCommandPalette : bool
}.

Definition setMessages (f : list Message -> list Message) (st : State) : State :=
  {| messages := f (messages st);
     isLoading := isLoading st;
     selectedSource := selectedSource st;
     sidebarCollapsed := sidebarCollapsed st;
     isDarkMode := isDarkMode st;
     conversationId := conversationId st;
     showCommandPalette := showCommandPalette st |}.

Definition setIsLoading (b : bool) (st : State) : State :=
  {| messages := messages st;
     isLoading := b;
     selectedSource := selectedSource st;
     sidebarCollapsed := sidebarCollapsed st;
     isDarkMode := isDarkMode st;
     conversationId := conversationId st;
     showCommandPalette := showCommandPalette st |}.

Definition setConversationId (c : option json_value) (st : State) : State :=
  {| messages := messages st;
     isLoading := isLoading st;
     selectedSource := selectedSource st;
     sidebarCollapsed := sidebarCollapsed st;
     isDarkMode := isDarkMode st;
     conversationId := c;
     showCommandPalette := showCommandPalette st |}.

(** What [Date.now()] and [new Date()] return, in milliseconds, at each of
    the places where the handler reads them. *)
Record Clock := {
  now_user : Z;
  date_user : Z;
  startTime : Z;
  endTime : Z;
  now_reply : Z;
  date_reply : Z;
  now_error : Z;
  date_error : Z
}.

(** The marks that open the two literals below, as the source file has
    them: the code points U+00E2 U+0152, and U+00F0 U+0178 U+017D U+2030.
    A code point above U+00FF is held as the bytes of its UTF-8 form. *)
Definition cross_mark : string :=
  String (ascii_of_nat 226) (String (ascii_of_nat 197) (String (ascii_of_nat 146) "")).
Definition party_popper : string :=
  String (ascii_of_nat 240)
    (String (ascii_of_nat 197) (String (ascii_of_nat 184)
      (String (ascii_of_nat 197) (String (ascii_of_nat 189)
        (String (ascii_of_nat 226) (String (ascii_of_nat 128)
          (String (ascii_of_nat 176) ""))))))).

(** A value, [null] or [undefined] used as a condition: the value when it
    is truthy. *)
Definition present (c : option json_value) : option json_value :=
  match c with
  | Some v => if truthy v then Some v else None
  | None => None
  end.

Section Handlers.
(** [String(x)] for a number [x]. *)
Variable Number_toString : Q -> string.
(** The Number a value is read as where the code multiplies with it. *)
Variable ToNumber : option json_value -> JsNumber.number.

(** [const handleSendMessage = async (content) => ...]; the arguments
    are those of [Layout1.handleSendMessage].

    The [try] block can throw after [api.ask] has returned, on a body
    that is [null]: at [response.conversation_id] when the render has no
    conversation id, and at [response.answer] otherwise; nothing has been
    appended then.  The [TypeError] is no [DocuMentorApiError], so the
    [catch] block keeps its default text. *)
Definition handleSendMessage (render : State) (clock : Clock)
           (net : fetch_outcome) (meanwhile : State -> State)
           (content : string) : handler State :=
  fun st =>
    let userMessage :=
      {| id := "user-" ++ JsString.of_Z (now_user clock);
         content := Some (JString content);
         role := user;
         timestamp := date_user clock;
         sources := None;
         confidence := None;
         responseTime := None |} in
    let st := setMessages (fun prev => prev ++ [userMessage]) st in
    let st := setIsLoading true st in
    let request :=
      {| Types.question := content;
         Types.source := if String.eqb (selectedSource render) "all" then None
                         else Some (selectedSource render);
         Types.conversation_id := present (conversationId render) |} in
    let (called, outcome) :=
      Lib.api_ask Number_toString json_value (fun data => data) request net in
    let st := meanwhile st in
    let caught (errorMessage : string) (st : State) : State * list effect :=
      let errorResponse :=
        {| id := "error-" ++ JsString.of_Z (now_error clock);
           content := Some (JString
                        (cross_mark ++ " **Error**: " ++ errorMessage
                           ++ String (ascii_of_nat 10) (String (ascii_of_nat 10) "")
                           ++ "Please try again or check your connection."));
           role := assistant;
           timestamp := date_error clock;
           sources := Some (JArray []);
           confidence := Some (JsNumber.of_Z 0);
           responseTime := None |} in
      let st := setMessages (fun prev => prev ++ [errorResponse]) st in
      (st,
       [ConsoleError "Error sending message:";
        Toast {| title := "Connection Error";
                 description := errorMessage;
                 variant := Some "destructive" |}]) in
    let (st, done) :=
      match outcome with
      | inr response =>
          (* [if (!conversationId && response.conversation_id)] *)
          let adopted : completion (option json_value) :=
            match present (conversationId render) with
            | Some _ => Returns None
            | None =>
                match get "conversation_id" response with
                | Returns named => Returns (present named)
                | Throws e => Throws e
                end
            end in
          match adopted, get "answer" response with
          | Returns adopted, Returns answer =>
              let st :=
                match adopted with
                | Some named => setConversationId (Some named) st
                | None => st
                end in
              let assistantMessage :=
                {| id := "assistant-" ++ JsString.of_Z (now_reply clock);
                   content := answer;
                   role := assistant;
                   timestamp := date_reply clock;
                   sources := property "sources" response;
                   confidence :=
                     Some (JsNumber.Math_round
                             (JsNumber.multiply (ToNumber (property "confidence" response))
                                (JsNumber.of_Z 100)));
                   responseTime :=
                     Some (JsNumber.divide
                             (JsNumber.subtract (JsNumber.of_Z (endTime clock))
                                (JsNumber.of_Z (startTime clock)))
                             (JsNumber.of_Z 1000)) |} in
              let st := setMessages (fun prev => prev ++ [assistantMessage]) st in
              (st,
               if Nat.eqb (List.length (messages render)) 0 then
                 [Toast {| title := party_popper ++ " Welcome to DocuMentor!";
                           description := "Your AI documentation assistant is ready to help.";
                           variant := None |}]
               else [])
          | _, _ => caught "Failed to get response from AI assistant." st
          end
      | inl error =>
          (* [isApiError(error)] holds: [apiRequest] throws nothing else *)
          caught (Lib.message error) st
      end in
    (setIsLoading false st, called ++ done).
End Handlers.

Definition setIsDarkMode (b : bool) (st : State) : State :=
  {| messages := messages st;
     isLoading := isLoading st;
     selectedSource := selectedSource st;
     sidebarCollapsed := sidebarCollapsed st;
     isDarkMode := b;
     conversationId := conversationId st;
     showCommandPalette := showCommandPalette st |}.

(** What the theme code reads and writes outside the component: the item
    [documentor-theme] of [localStorage], whether the root element has the
    class [dark], and what the [prefers-color-scheme: dark] query answers. *)
Record Browser := {
  theme_item : option string;
  dark_class : bool;
  prefers_dark : bool
}.

(** The effect run once after the first render. *)
Definition initTheme : State * Browser -> State * Browser :=
  fun '(st, browser) =>
    let savedTheme := theme_item browser in
    let prefersDark := prefers_dark browser in
    let shouldUseDark :=
      match savedTheme with
      | Some saved => String.eqb saved "dark" || (JsString.is_empty saved && prefersDark)
      | None => prefersDark
      end in
    (setIsDarkMode shouldUseDark st,
     {| theme_item := theme_item browser;
        dark_class := shouldUseDark;
        prefers_dark := prefers_dark browser |}).

(** [const toggleDarkMode = () => ...]; [render] is the state the closure
    reads [isDarkMode] from. *)
Definition toggleDarkMode (render : State) : State * Browser -> State * Browser :=
  fun '(st, browser) =>
    let newDarkMode := negb (isDarkMode render) in
    (setIsDarkMode newDarkMode st,
     {| theme_item := Some (if newDarkMode then "dark" else "light");
        dark_class := newDarkMode;
        prefers_dark := prefers_dark browser |}).

End Layout2.

(* ------------------------------------------------------------------ *)
(** ** The way from the text box to [handleSendMessage] *)

Module SendPath.

(** [<ChatInput value={inputValue} onSubmit={handleSubmit}
    disabled={isLoading} />] inside [ChatInterface], whose [onSendMessage]
    is the layout's [handleSendMessage]. *)
Definition chat {S : Type} (isLoading : bool)
           (handleSendMessage : string -> handler S) : handler (string * S) :=
  fun '(inputValue, st) =>
    ChatInput.handleSubmit inputValue isLoading
      (ChatInterface.handleSubmit isLoading handleSendMessage) (inputValue, st).

(** [<ChatInput value={inputValue} onSubmit={handleSubmit}
    disabled={false} />] inside [WelcomeScreen]. *)
Definition welcome {S : Type} (handleSendMessage : string -> handler S)
           (inputValue : string) : handler S :=
  ChatInput.handleSubmit inputValue false
    (WelcomeScreen.handleSubmit handleSendMessage).

End SendPath.

(* ------------------------------------------------------------------ *)
(** ** Concrete run-time functions, for statements on explicit inputs *)

Module Concrete.

(** [String(x)] for an integer [x] below 1e21. *)
Definition integer_toString (x : Q) : string := JsString.of_Z (Qfloor x).

(** The Number a value is read as, for the values a number can be read
    from without reading a text: [undefined], [null], a boolean and a
    number.  (A string, an array or an object is [NaN] here; the platform
    reads some of them as numbers.) *)
Definition ToNumber (v : option json_value) : JsNumber.number :=
  match v with
  | Some JNull => S754_zero false
  | Some (JBool true) => JsNumber.of_Z 1
  | Some (JBool false) => S754_zero false
  | Some (JNumber q) => JsNumber.of_literal q
  | _ => S754_nan
  end.

Definition two_digits (n : Z) : string :=
  ((if (n <? 10)%Z then "0" else "") ++ JsString.of_Z n)%string.

(** [x.toFixed(2)] below 1e21: the sign, then the number of hundredths
    nearest to the exact value of [x] (the larger one on a tie) written
    with two decimals.  (From 1e21 on the platform prints an exponent; here
    the digits go on.) *)
Definition toFixed2 (x : JsNumber.number) : string :=
  match x with
  | S754_nan => "NaN"
  | S754_infinity s => if s then "-Infinity" else "Infinity"
  | S754_zero _ => "0.00"
  | S754_finite s m e =>
      let n :=
        (if 0 <=? e then Z.pos m * 2 ^ e * 100
         else (Z.pos m * 200 + 2 ^ (- e)) / 2 ^ (1 - e))%Z in
      ((if s then "-" else "")
         ++ JsString.of_Z (n / 100) ++ "." ++ two_digits (n mod 100))%string
  end.

Definition LF : string := String (ascii_of_nat 10) EmptyString.

(** A JSON string literal without escapes: the text between two quotes. *)
Definition quoted (s : string) : string :=
  String Json.quote s ++ String Json.quote EmptyString.

Definition a1 : json_value := JObject [("a", JNumber (1 # 1))].
Definition b2 : json_value := JObject [("b", JNumber (2 # 1))].

(** The two events of the example, as the server writes them. *)
Definition two_events : string :=
  "data: {" ++ quoted "a" ++ ":1}" ++ LF ++ "data: {" ++ quoted "b" ++ ":2}" ++ LF.

Definition first_event : string := "data: {" ++ quoted "a" ++ ":1}" ++ LF.
Definition second_event_line : string := "data: {" ++ quoted "b" ++ ":2}".
Definition second_event : string := second_event_line ++ LF.

(** The same text cut after [{"a"]. *)
Definition first_read_mid_line : string := "data: {" ++ quoted "a".
Definition second_read_rest : string := ":1}" ++ LF ++ second_event.


Definition askStream (reads : list string) : list effect * completion unit :=
  Services.askStream Services.decode_ascii JSON_parse (fun _ => true)
    "q" None (Services.stream_of reads).

Definition no_options : Lib.RequestInit :=
  {| Lib.init_method := None; Lib.init_headers := None; Lib.init_body := None |}.

Definition apiRequest (net : fetch_outcome)
  : list effect * (Lib.DocuMentorApiError + json_value) :=
  Lib.apiRequest integer_toString json_value (fun data => data) "/ask" no_options net.

(** A rejected [fetch] whose message does not mention [fetch]. *)
Definition load_failed : fetch_outcome :=
  Rejects {| class := TypeError; Js.message := "Load failed" |}.

(** A rejected [fetch] whose message does. *)
Definition failed_to_fetch : Js.error :=
  {| class := TypeError; Js.message := "Failed to fetch" |}.


(** A response with status 500 and a [detail]. *)
Definition http_500_boom : Response :=
  response_of_text 500 "Internal Server Error"
    ("{" ++ quoted "detail" ++ ":" ++ quoted "boom" ++ "}").

Definition just_hi : Types.AskRequest :=
  {| Types.question := "hi"; Types.source := None; Types.conversation_id := None |}.

Definition Layout1_initial : Layout1.State :=
  {| Layout1.messages := [];
     Layout1.isLoading := false;
     Layout1.isSidebarOpen := true;
     Layout1.selectedSource := None;
     Layout1.isCommandPaletteOpen := false;
     Layout1.isDarkMode := true |}.

Definition Layout2_initial : Layout2.State :=
  {| Layout2.messages := [];
     Layout2.isLoading := false;
     Layout2.selectedSource := "all";
     Layout2.sidebarCollapsed := false;
     Layout2.isDarkMode := false;
     Layout2.conversationId := None;
     Layout2.showCommandPalette := false |}.

Definition clock1 : Layout1.Clock :=
  {| Layout1.now_user := 1000; Layout1.date_user := 1000;
     Layout1.now_reply := 1500; Layout1.date_reply := 1500;
     Layout1.now_error := 1500; Layout1.date_error := 1500 |}.

Definition clock2 : Layout2.Clock :=
  {| Layout2.now_user := 1000; Layout2.date_user := 1000;
     Layout2.startTime := 1000; Layout2.endTime := 1500;
     Layout2.now_reply := 1500; Layout2.date_reply := 1500;
     Layout2.now_error := 1500; Layout2.date_error := 1500 |}.

(** A successful answer of the back end, for either client. *)
Definition answer_body : string :=
  "{" ++ quoted "answer" ++ ":" ++ quoted "Use a chain."
    ++ "," ++ quoted "sources" ++ ":[]"
    ++ "," ++ quoted "response_time" ++ ":2"
    ++ "," ++ quoted "confidence" ++ ":0.9"
    ++ "," ++ quoted "conversation_id" ++ ":" ++ quoted "c1" ++ "}".

Definition answered : fetch_outcome := Resolves (response_of_text 200 "OK" answer_body).

(** An answer whose [response_time] is a string, and a body that is [null]. *)
Definition answer_without_time : string :=
  "{" ++ quoted "answer" ++ ":" ++ quoted "Use a chain."
    ++ "," ++ quoted "response_time" ++ ":" ++ quoted "2s" ++ "}".

Definition answered_without_time : fetch_outcome :=
  Resolves (response_of_text 200 "OK" answer_without_time).

Definition answered_null : fetch_outcome := Resolves (response_of_text 200 "OK" "null").

End Concrete.

(* ------------------------------------------------------------------ *)
(** ** components/ChatMessage.tsx: the [code] renderer *)

Module ChatMessage.

(** A character of the class [\w]. *)
Definition is_word (c : ascii) : bool :=
  let n := nat_of_ascii c in
  (Nat.leb 48 n && Nat.leb n 57) || (Nat.leb 65 n && Nat.leb n 90)
  || (Nat.leb 97 n && Nat.leb n 122) || Nat.eqb n 95.

(** The longest run of word characters a text begins with. *)
Fixpoint word_run (s : string) : string :=
  match s with
  | String c r => if is_word c then String c (word_run r) else EmptyString
  | EmptyString => EmptyString
  end.

(** The first group of [/language-(\w+)/.exec(text)]: the word after the
    leftmost [language-] that has one; [None] when there is no match. *)
Fixpoint exec_language (text : string) : option string :=
  match text with
  | EmptyString => None
  | String _ rest =>
      if String.prefix "language-" text then
        match word_run (JsString.slice 9 text) with
        | EmptyString => exec_language rest
        | word => Some word
        end
      else exec_language rest
  end.

(** [const match = /language-(\w+)/.exec(className || '');
    const language = match?.[1] || 'text';] *)
Definition language (className : option string) : string :=
  match exec_language (match className with Some name => name | None => EmptyString end) with
  | Some word => word
  | None => "text"
  end.

(** [text.replace(/\n$/, '')]: without the line feed the text ends with,
    if it ends with one. *)
Fixpoint codeString (text : string) : string :=
  match text with
  | EmptyString => EmptyString
  | String c EmptyString => if Ascii.eqb c (ascii_of_nat 10) then EmptyString else text
  | String c rest => String c (codeString rest)
  end.

End ChatMessage.

(* ------------------------------------------------------------------ *)
(** ** Predicates the statements use *)

(** A text that does not begin with white space. *)
Definition starts_clean (s : string) : Prop :=
  match s with
  | EmptyString => True
  | String c _ => JsString.is_whitespace c = false
  end.

(** The [console.error] calls of a trace. *)
Definition is_console_error (e : effect) : bool :=
  match e with ConsoleError _ => true | _ => false end.

(** A character that can stand inside a name or a value of a query
    string without ending it: a letter, a digit, one of the four marks, the
    plus sign of a space, or part of a percent escape. *)
Definition query_safe (c : ascii) : bool :=
  URLSearchParams.unreserved c || Ascii.eqb c "+" || Ascii.eqb c "%".

(** The [toast] calls of a trace. *)
Fixpoint toasts (trace : list effect) : list toast :=
  match trace with
  | [] => []
  | Toast t :: rest => t :: toasts rest
  | _ :: rest => toasts rest
  end.

(** Whether a value is a number. *)
Definition is_number (v : option json_value) : bool :=
  match v with Some (JNumber _) => true | _ => false end.

(** The three [Message] literals of the layout over [services/api]. *)
Definition Layout1_userMessage (clock : Layout1.Clock) (content : string) : Layout1.Message :=
  {| Layout1.id := "msg-" ++ JsString.of_Z (Layout1.now_user clock);
     Layout1.content := Some (JString content);
     Layout1.role := user;
     Layout1.timestamp := Layout1.date_user clock;
     Layout1.sources := None;
     Layout1.confidence := None;
     Layout1.responseTime := None |}.

Definition Layout1_aiMessage (clock : Layout1.Clock) (response : json_value)
  : Layout1.Message :=
  {| Layout1.id := "msg-" ++ JsString.of_Z (Layout1.now_reply clock + 1);
     Layout1.content := property "answer" response;
     Layout1.role := assistant;
     Layout1.timestamp := Layout1.date_reply clock;
     Layout1.sources := property "sources" response;
     Layout1.confidence := property "confidence" response;
     Layout1.responseTime := property "response_time" response |}.

Definition Layout1_errorMessage (clock : Layout1.Clock) : Layout1.Message :=
  {| Layout1.id := "msg-" ++ JsString.of_Z (Layout1.now_error clock + 1);
     Layout1.content := Some (JString "Sorry, I encountered an error while processing your request. Please make sure the backend server is running on http://localhost:8000");
     Layout1.role := assistant;
     Layout1.timestamp := Layout1.date_error clock;
     Layout1.sources := None;
     Layout1.confidence := None;
     Layout1.responseTime := None |}.

(** Whether the toast of a first send throws on a response: the render has
    no message and [response_time] is not a number. *)
Definition Layout1_toast_throws (render : Layout1.State) (response : json_value) : bool :=
  Nat.eqb (List.length (Layout1.messages render)) 0
  && negb (is_number (property "response_time" response)).

(** The messages the layout over [services/api] appends when the call
    has ended. *)
Definition Layout1_replies (render : Layout1.State) (clock : Layout1.Clock)
           (outcome : completion json_value) : list Layout1.Message :=
  match outcome with
  | Returns JNull => [Layout1_errorMessage clock]
  | Returns response =>
      Layout1_aiMessage clock response
        :: (if Layout1_toast_throws render response then [Layout1_errorMessage clock] else [])
  | Throws _ => [Layout1_errorMessage clock]
  end.

(** The three [Message] literals of the layout over [lib/api]. *)
Definition Layout2_userMessage (clock : Layout2.Clock) (content : string) : Layout2.Message :=
  {| Layout2.id := "user-" ++ JsString.of_Z (Layout2.now_user clock);
     Layout2.content := Some (JString content);
     Layout2.role := user;
     Layout2.timestamp := Layout2.date_user clock;
     Layout2.sources := None;
     Layout2.confidence := None;
     Layout2.responseTime := None |}.

Definition Layout2_assistantMessage (ToNumber : option json_value -> JsNumber.number)
           (clock : Layout2.Clock) (response : json_value) : Layout2.Message :=
  {| Layout2.id := "assistant-" ++ JsString.of_Z (Layout2.now_reply clock);
     Layout2.content := property "answer" response;
     Layout2.role := assistant;
     Layout2.timestamp := Layout2.date_reply clock;
     Layout2.sources := property "sources" response;
     Layout2.confidence :=
       Some (JsNumber.Math_round
               (JsNumber.multiply (ToNumber (property "confidence" response))
                  (JsNumber.of_Z 100)));
     Layout2.responseTime :=
       Some (JsNumber.divide
               (JsNumber.subtract (JsNumber.of_Z (Layout2.endTime clock))
                  (JsNumber.of_Z (Layout2.startTime clock)))
               (JsNumber.of_Z 1000)) |}.

Definition Layout2_errorResponse (clock : Layout2.Clock) (errorMessage : string)
  : Layout2.Message :=
  {| Layout2.id := "error-" ++ JsString.of_Z (Layout2.now_error clock);
     Layout2.content :=
       Some (JString (Layout2.cross_mark ++ " **Error**: " ++ errorMessage
                        ++ String (ascii_of_nat 10) (String (ascii_of_nat 10) "")
                        ++ "Please try again or check your connection."));
     Layout2.role := assistant;
     Layout2.timestamp := Layout2.date_error clock;
     Layout2.sources := Some (JArray []);
     Layout2.confidence := Some (JsNumber.of_Z 0);
     Layout2.responseTime := None |}.

(** The message the layout over [lib/api] appends when the call has ended. *)
Definition Layout2_reply (ToNumber : option json_value -> JsNumber.number)
           (clock : Layout2.Clock)
           (outcome : Lib.DocuMentorApiError + json_value) : Layout2.Message :=
  match outcome with
  | inl error => Layout2_errorResponse clock (Lib.message error)
  | inr JNull => Layout2_errorResponse clock "Failed to get response from AI assistant."
  | inr response => Layout2_assistantMessage ToNumber clock response
  end.

(** The [AskRequest] the layout over [lib/api] builds. *)
Definition Layout2_request (render : Layout2.State) (content : string) : Types.AskRequest :=
  {| Types.question := content;
     Types.source := if String.eqb (Layout2.selectedSource render) "all" then None
                     else Some (Layout2.selectedSource render);
     Types.conversation_id := Layout2.present (Layout2.conversationId render) |}.

(** A text made of word characters only. *)
Fixpoint all_word (s : string) : bool :=
  match s with
  | EmptyString => true
  | String c r => ChatMessage.is_word c && all_word r
  end.

(** Whether a text ends with a line feed. *)
Fixpoint ends_with_newline (s : string) : bool :=
  match s with
  | EmptyString => false
  | String c EmptyString => Ascii.eqb c (ascii_of_nat 10)
  | String _ r => ends_with_newline r
  end.

(* ================================================================== *)
(** * Properties *)

(** ** Strings *)

Lemma prefix_app (p rest : string) : String.prefix p (p ++ rest) = true.
Proof.
  induction p as [|c p IH]; simpl.
  - now destruct rest.
  - destruct (ascii_dec c c) as [_|ne]; [exact IH | now destruct ne].
Qed.

Lemma includes_prefix (sub s : string) :
  String.prefix sub s = true -> JsString.includes sub s = true.
Proof. intros H. destruct s; unfold JsString.includes; now rewrite H. Qed.

Lemma includes_here (sub rest : string) : JsString.includes sub (sub ++ rest) = true.
Proof. apply includes_prefix, prefix_app. Qed.

Lemma includes_cons (sub : string) (c : ascii) (r : string) :
  JsString.includes sub (String c r)
  = String.prefix sub (String c r) || JsString.includes sub r.
Proof. reflexivity. Qed.

Lemma includes_app (sub pre post : string) :
  JsString.includes sub (pre ++ sub ++ post) = true.
Proof.
  induction pre as [|c pre IH].
  - exact (includes_here sub post).
  - change (String c pre ++ sub ++ post)%string with (String c (pre ++ sub ++ post)).
    rewrite includes_cons, IH. apply orb_true_r.
Qed.

Lemma trimStart_blank (s : string) : JsString.blank s -> JsString.trimStart s = EmptyString.
Proof.
  unfold JsString.blank.
  induction s as [|c s IH]; simpl; intros H; [reflexivity|].
  rewrite (H c) by now left.
  apply IH. intros x Hx. apply H. now right.
Qed.

Lemma trim_blank (s : string) : JsString.blank s -> JsString.trim s = EmptyString.
Proof.
  intros H. unfold JsString.trim. now rewrite trimStart_blank.
Qed.

(** ** The read loop of [askStream] *)

Lemma callbacks_app (t1 t2 : list effect) :
  callbacks (t1 ++ t2) = callbacks t1 ++ callbacks t2.
Proof.
  induction t1 as [|e t1 IH]; simpl; [reflexivity|].
  destruct e; simpl; now rewrite IH.
Qed.

Section ReadLoop.
Variable decode : list Byte.byte -> string.
Variable JSON_parse : string -> option json_value.
Variable onChunk : json_value -> bool.

Local Abbreviation on_line := (Services.on_line JSON_parse onChunk).
Local Abbreviation for_lines := (Services.for_lines JSON_parse onChunk).
Local Abbreviation read_loop := (Services.read_loop decode JSON_parse onChunk).

Lemma for_lines_app (l1 l2 : list string) :
  for_lines (l1 ++ l2) = for_lines l1 ++ for_lines l2.
Proof.
  induction l1 as [|l l1 IH]; simpl; [reflexivity|].
  now rewrite IH, app_assoc.
Qed.

Lemma read_loop_cons (value : list Byte.byte) rest last :
  read_loop (value :: rest) last
  = (for_lines (JsString.split Services.newline (decode value)) ++ fst (read_loop rest last),
     snd (read_loop rest last)).
Proof.
  simpl. now destruct (read_loop rest last).
Qed.

Lemma read_loop_result pending last :
  snd (read_loop pending last) = Services.stream_result last.
Proof.
  induction pending as [|value rest IH].
  - now destruct last.
  - now rewrite read_loop_cons.
Qed.

Lemma read_loop_app before after last :
  fst (read_loop (before ++ after) last)
  = fst (read_loop before Done) ++ fst (read_loop after last).
Proof.
  induction before as [|value rest IH]; [reflexivity|].
  rewrite <- app_comm_cons, !read_loop_cons. simpl.
  now rewrite IH, app_assoc.
Qed.

(** A callback in the trace of some lines comes from a [data: ] line
    among them whose remainder parses. *)
Lemma on_line_callback line data :
  In (OnChunk data) (on_line line) ->
  JsString.startsWith "data: " line = true
  /\ JSON_parse (JsString.slice 6 line) = Some data.
Proof.
  unfold Services.on_line.
  destruct (JsString.startsWith "data: " line); [|intros []].
  destruct (JSON_parse (JsString.slice 6 line)) as [d|].
  - intros [H|H].
    + injection H as ->. now split.
    + destruct (onChunk d); simpl in H; [destruct H|].
      destruct H as [H|[]]. discriminate H.
  - intros [H|[]]. discriminate H.
Qed.

Lemma for_lines_callback lines data :
  In (OnChunk data) (for_lines lines) ->
  exists line, In line lines
    /\ JsString.startsWith "data: " line = true
    /\ JSON_parse (JsString.slice 6 line) = Some data.
Proof.
  induction lines as [|l lines IH]; simpl; [intros []|].
  intros H. apply in_app_or in H as [H|H].
  - exists l. split; [now left|]. now apply on_line_callback.
  - destruct (IH H) as (line & Hin & Hp). exists line. split; [now right|exact Hp].
Qed.

Lemma read_loop_callback pending last data :
  In (OnChunk data) (fst (read_loop pending last)) ->
  exists value line,
    In value pending
    /\ In line (JsString.split Services.newline (decode value))
    /\ JsString.startsWith "data: " line = true
    /\ JSON_parse (JsString.slice 6 line) = Some data.
Proof.
  induction pending as [|value rest IH].
  - destruct last; intros [].
  - rewrite read_loop_cons. simpl. intros H.
    apply in_app_or in H as [H|H].
    + destruct (for_lines_callback _ _ H) as (line & Hin & Hp).
      exists value, line. split; [now left|]. now split.
    + destruct (IH H) as (v & line & Hv & Hp).
      exists v, line. split; [now right|exact Hp].
Qed.

(** The trace of [askStream] on a response with a good status and a body. *)
Lemma askStream_ok question sourceFilter st stream :
  stream_ok {| stream_status := st; stream_body := Some stream |} = true ->
  Services.askStream decode JSON_parse onChunk question sourceFilter
    (StreamResolves {| stream_status := st; stream_body := Some stream |})
  = (Fetch (Services.askStream_request question sourceFilter)
       :: fst (read_loop (reads stream) (ending stream)),
     Services.stream_result (ending stream)).
Proof.
  intros Hok. unfold Services.askStream. rewrite Hok. simpl.
  rewrite <- (read_loop_result (reads stream) (ending stream)).
  now destruct (read_loop (reads stream) (ending stream)).
Qed.

End ReadLoop.

(** ** The stream decoder *)

(** C1, as stated, fails: the text of the two events cut after [{"a"] and
    fed as two reads does not give the callbacks [{a:1}] then [{b:2}]. *)
Lemma askStream_mid_line_counterexample :
  (Concrete.first_read_mid_line ++ Concrete.second_read_rest)%string = Concrete.two_events
  /\ callbacks (fst (Concrete.askStream
                       [Concrete.first_read_mid_line; Concrete.second_read_rest]))
     <> [Concrete.a1; Concrete.b2].
Proof.
  split; [reflexivity|].
  vm_compute. intros H. discriminate H.
Qed.

(** C1, as amended.  [askStream] keeps no buffer between reads: each read is
    decoded and split on line boundaries by itself, so the callbacks of a
    stream are those of its reads taken one after the other.  The two events
    fed as two reads that end on the line boundary give exactly two
    callbacks, [{a:1}] then [{b:2}]; when the first read ends after [{"a"],
    that fragment fails to parse and is logged, the rest of its line has no
    [data: ] prefix and is skipped, and only [{b:2}] is delivered. *)
Theorem askStream_keeps_no_buffer :
  (forall decode JSON_parse onChunk question sourceFilter before after,
      let run chunks :=
        callbacks (fst (Services.askStream decode JSON_parse onChunk question sourceFilter
                          (Services.ok_stream chunks))) in
      run (before ++ after) = run before ++ run after)
  /\ callbacks (fst (Concrete.askStream [Concrete.first_event; Concrete.second_event]))
     = [Concrete.a1; Concrete.b2]
  /\ fst (Concrete.askStream [Concrete.first_read_mid_line; Concrete.second_read_rest])
     = [Fetch (Services.askStream_request "q" None);
        ConsoleError "Error parsing SSE:";
        OnChunk Concrete.b2].
Proof.
  split; [|split; reflexivity].
  intros decode JSON_parse onChunk question sourceFilter before after run.
  subst run. unfold Services.ok_stream.
  rewrite !askStream_ok by reflexivity. simpl.
  now rewrite read_loop_app, callbacks_app.
Qed.



(** C10.  The callback is invoked only for a line that begins with
    [data: ] and whose remainder parses as JSON, with the parsed value; a
    line without that prefix (an empty line, a comment, any other field)
    makes the loop do nothing: no callback and no error. *)
Theorem askStream_callback_only_for_data_lines :
  forall decode JSON_parse onChunk question sourceFilter net trace result,
    Services.askStream decode JSON_parse onChunk question sourceFilter net = (trace, result) ->
    (forall data,
        In (OnChunk data) trace ->
        exists response stream value line,
          net = StreamResolves response
          /\ stream_body response = Some stream
          /\ In value (reads stream)
          /\ In line (JsString.split Services.newline (decode value))
          /\ JsString.startsWith "data: " line = true
          /\ JSON_parse (JsString.slice 6 line) = Some data)
    /\ (forall line,
           JsString.startsWith "data: " line = false ->
           Services.on_line JSON_parse onChunk line = []).
Proof.
  intros decode JSON_parse onChunk question sourceFilter net trace result Hrun.
  split.
  - intros data Hin.
    destruct net as [e|[st [stream|]]].
    + injection Hrun as <- _. destruct Hin as [H|[]]. discriminate H.
    + destruct (stream_ok {| stream_status := st; stream_body := Some stream |}) eqn:Hok.
      * rewrite askStream_ok in Hrun by exact Hok.
        injection Hrun as <- _.
        destruct Hin as [H|H]; [discriminate H|].
        apply read_loop_callback in H as (value & line & Hv & Hl & Hp & Hd).
        exists {| stream_status := st; stream_body := Some stream |}, stream, value, line.
        repeat split; assumption.
      * unfold Services.askStream in Hrun. rewrite Hok in Hrun.
        injection Hrun as <- _. destruct Hin as [H|[]]. discriminate H.
    + unfold Services.askStream in Hrun. simpl in Hrun.
      destruct (stream_ok {| stream_status := st; stream_body := None |});
        injection Hrun as <- _; destruct Hin as [H|[]]; discriminate H.
  - intros line Hprefix. unfold Services.on_line. now rewrite Hprefix.
Qed.

Lemma askStream_callback_only_for_data_lines_witness :
  Concrete.askStream [Concrete.two_events]
  = ([Fetch (Services.askStream_request "q" None);
      OnChunk Concrete.a1; OnChunk Concrete.b2], Returns tt)
  /\ (exists response stream value line,
         Services.stream_of [Concrete.two_events] = StreamResolves response
         /\ stream_body response = Some stream
         /\ In value (reads stream)
         /\ In line (JsString.split Services.newline (Services.decode_ascii value))
         /\ JsString.startsWith "data: " line = true
         /\ JSON_parse (JsString.slice 6 line) = Some Concrete.a1)
  /\ Services.on_line JSON_parse (fun _ => true) ": keep-alive" = [].
Proof.
  pose proof (askStream_callback_only_for_data_lines
                Services.decode_ascii JSON_parse (fun _ => true) "q" None
                (Services.stream_of [Concrete.two_events]) _ _ eq_refl) as [Hcb Hskip].
  split; [reflexivity|]. split.
  - apply Hcb. right. left. reflexivity.
  - apply Hskip. reflexivity.
Defined.

(** ** The two HTTP clients *)

Lemma append_empty_r (s : string) : (s ++ "")%string = s.
Proof. induction s as [|c s IH]; simpl; [reflexivity | now rewrite IH]. Qed.










(** C8, as stated, fails: the body [api.ask] sends to [/ask] is its
    [AskRequest], which has none of [k], [temperature], [max_tokens]. *)
Lemma api_ask_body_counterexample :
  exists request fields,
    fst (Lib.api_ask Concrete.integer_toString json_value (fun data => data)
           Concrete.just_hi Concrete.answered) = [Fetch request]
    /\ url request = "http://localhost:8000/ask"
    /\ method request = "POST"
    /\ body request = Some (JObject fields)
    /\ fields = [("question", JString "hi")]
    /\ lookup "k" fields = None
    /\ lookup "temperature" fields = None
    /\ lookup "max_tokens" fields = None.
Proof. do 2 eexists. repeat split; reflexivity. Qed.

(** C8, as amended.  The body [DocuMentorAPI.ask] posts to [/ask] has
    [question], [k] = 5, [temperature] = 0.1 and [max_tokens] = 1024, and
    [source_filter] exactly when a filter is given.  The body [api.ask]
    posts to [/ask] has [question], and [source] and [conversation_id] when
    the request has them; it has no [k], [temperature] or [max_tokens]. *)
Theorem ask_request_body_shape :
  forall question sourceFilter Number_toString (T : Type) (as_T : json_value -> T)
         request net,
    (exists fields,
        body (Services.ask_request question sourceFilter) = Some (JObject fields)
        /\ url (Services.ask_request question sourceFilter) = "http://localhost:8000/ask"
        /\ method (Services.ask_request question sourceFilter) = "POST"
        /\ lookup "question" fields = Some (JString question)
        /\ lookup "source_filter" fields = option_map JString sourceFilter
        /\ lookup "k" fields = Some (JNumber (5 # 1))
        /\ lookup "temperature" fields = Some (JNumber (1 # 10))
        /\ lookup "max_tokens" fields = Some (JNumber (1024 # 1))
        /\ hd_error (fst (Services.ask T as_T question sourceFilter net))
           = Some (Fetch (Services.ask_request question sourceFilter)))
    /\ (exists sent fields,
           fst (Lib.api_ask Number_toString T as_T request net) = [Fetch sent]
           /\ url sent = "http://localhost:8000/ask"
           /\ method sent = "POST"
           /\ body sent = Some (JObject fields)
           /\ lookup "question" fields = Some (JString (Types.question request))
           /\ lookup "source" fields = option_map JString (Types.source request)
           /\ lookup "conversation_id" fields = Types.conversation_id request
           /\ lookup "k" fields = None
           /\ lookup "temperature" fields = None
           /\ lookup "max_tokens" fields = None).
Proof.
  intros question sourceFilter Number_toString T as_T [q src conv] net.
  split.
  - eexists. split; [reflexivity|].
    repeat split; try (destruct sourceFilter; reflexivity).
    unfold Services.ask.
    destruct net as [e|r]; [reflexivity|].
    destruct (ok r); [|reflexivity].
    now destruct (json r).
  - assert (Hfetch : forall options,
               fst (Lib.apiRequest Number_toString T as_T "/ask" options net)
               = [Fetch (Lib.config "/ask" options)]).
    { intros options. unfold Lib.apiRequest.
      destruct net as [e|r]; [reflexivity|].
      destruct (ok r); [|reflexivity].
      now destruct (json r). }
    unfold Lib.api_ask. rewrite Hfetch.
    do 2 eexists. split; [reflexivity|].
    split; [reflexivity|]. split; [reflexivity|]. split; [reflexivity|].
    destruct src, conv; repeat split; reflexivity.
Qed.

(** ** The conversation handlers *)

Lemma blank_trim_is_empty (value : string) :
  JsString.blank value -> JsString.is_empty (JsString.trim value) = true.
Proof. intros H. now rewrite trim_blank. Qed.

Lemma ChatInput_blank (S : Type) value disabled (onSubmit : string -> handler S) st :
  JsString.blank value ->
  ChatInput.handleSubmit value disabled onSubmit st = (st, []).
Proof.
  intros H. unfold ChatInput.handleSubmit. now rewrite blank_trim_is_empty.
Qed.

(** C4.  A text that is empty or white space only, submitted from the text
    box, changes nothing and does nothing: [ChatInput.handleSubmit] returns
    before it calls [onSubmit], whatever is wired behind it, so on both ways
    to [handleSendMessage] and for both layouts no [Message] is appended and
    no request is sent; [ChatInterface.handleSubmit] and the
    [handleSendMessage] of the layout over [services/api] return at their
    own guard for such a text as well.  The texts that reach
    [handleSendMessage] without passing the text box, the sample questions
    and the recent searches, are fixed and none of them is blank. *)
Theorem blank_message_is_not_sent :
  forall value,
    JsString.blank value ->
    (forall (S : Type) isLoading (send : string -> handler S) inputValue st,
        SendPath.chat isLoading send (value, st) = ((value, st), [])
        /\ SendPath.welcome send value st = (st, [])
        /\ ChatInterface.handleSubmit isLoading send value (inputValue, st)
           = ((inputValue, st), []))
    /\ (forall toFixed2 render clock net meanwhile st,
           Layout1.handleSendMessage toFixed2 render clock net meanwhile value st
           = (st, []))
    /\ (forall toFixed2 render clock net meanwhile st,
           let after :=
             SendPath.welcome
               (Layout1.handleSendMessage toFixed2 render clock net meanwhile)
               value st in
           Layout1.messages (fst after) = Layout1.messages st
           /\ filter is_fetch (snd after) = [])
    /\ (forall Number_toString ToNumber render clock net meanwhile st,
           let after :=
             SendPath.welcome
               (Layout2.handleSendMessage Number_toString ToNumber
                  render clock net meanwhile)
               value st in
           Layout2.messages (fst after) = Layout2.messages st
           /\ filter is_fetch (snd after) = [])
    /\ Forall (fun text => JsString.is_empty (JsString.trim text) = false)
         (WelcomeScreen.sampleQuestions ++ CommandPalette.recentSearches).
Proof.
  intros value Hblank.
  split; [|split; [|split; [|split]]].
  - intros S isLoading send inputValue st. split; [|split].
    + unfold SendPath.chat. now apply ChatInput_blank.
    + unfold SendPath.welcome. now apply ChatInput_blank.
    + unfold ChatInterface.handleSubmit. now rewrite blank_trim_is_empty.
  - intros. unfold Layout1.handleSendMessage. now rewrite blank_trim_is_empty.
  - intros. subst after. unfold SendPath.welcome.
    rewrite ChatInput_blank by exact Hblank. now split.
  - intros. subst after. unfold SendPath.welcome.
    rewrite ChatInput_blank by exact Hblank. now split.
  - repeat constructor.
Qed.

Lemma blank_message_is_not_sent_witness :
  JsString.blank "   "
  /\ SendPath.welcome
       (Layout2.handleSendMessage Concrete.integer_toString
          Concrete.ToNumber Concrete.Layout2_initial
          Concrete.clock2 Concrete.answered (fun st => st))
       "   " Concrete.Layout2_initial
     = (Concrete.Layout2_initial, []).
Proof.
  assert (Hblank : JsString.blank "   ").
  { intros c [<-|[<-|[<-|[]]]]; reflexivity. }
  split; [exact Hblank|].
  exact (proj1 (proj2 (proj1 (blank_message_is_not_sent "   " Hblank)
                         Layout2.State false
                         (Layout2.handleSendMessage Concrete.integer_toString
                            Concrete.ToNumber Concrete.Layout2_initial
                            Concrete.clock2 Concrete.answered (fun st => st))
                         "" Concrete.Layout2_initial))).
Defined.

(** The guard is in front of the [handleSendMessage] of the layout over
    [lib/api], not inside it: called by itself with an empty text it
    appends the user message and sends the request. *)
Example Layout2_handleSendMessage_has_no_guard :
  let after :=
    Layout2.handleSendMessage Concrete.integer_toString
      Concrete.ToNumber Concrete.Layout2_initial
      Concrete.clock2 Concrete.load_failed (fun st => st) "" Concrete.Layout2_initial in
  List.length (Layout2.messages (fst after)) = 2
  /\ List.length (filter is_fetch (snd after)) = 1.
Proof. split; reflexivity. Qed.

(** C6.  [handleClearChat] sets the messages to the empty list, shows a
    toast and sends no request; the loading flag, the selected source, the
    theme, and the states of the side bar and of the command palette are as
    before. *)
Theorem handleClearChat_only_empties_messages :
  forall st,
    Layout1.messages (fst (Layout1.handleClearChat st)) = []
    /\ filter is_fetch (snd (Layout1.handleClearChat st)) = []
    /\ Layout1.isLoading (fst (Layout1.handleClearChat st)) = Layout1.isLoading st
    /\ Layout1.selectedSource (fst (Layout1.handleClearChat st)) = Layout1.selectedSource st
    /\ Layout1.isDarkMode (fst (Layout1.handleClearChat st)) = Layout1.isDarkMode st
    /\ Layout1.isSidebarOpen (fst (Layout1.handleClearChat st)) = Layout1.isSidebarOpen st
    /\ Layout1.isCommandPaletteOpen (fst (Layout1.handleClearChat st))
       = Layout1.isCommandPaletteOpen st.
Proof. intros st. repeat split. Qed.

Lemma get_not_null (k : string) (v : json_value) :
  v <> JNull -> get k v = Returns (property k v).
Proof. destruct v; try reflexivity. intros H. now destruct H. Qed.

Lemma Layout2_resets_isLoading Number_toString ToNumber render clock net
      meanwhile content st :
  Layout2.isLoading
    (fst (Layout2.handleSendMessage Number_toString ToNumber
            render clock net meanwhile content st)) = false.
Proof.
  unfold Layout2.handleSendMessage.
  destruct (Lib.api_ask _ _ _ _ net) as [called [error|response]]; [reflexivity|].
  destruct (Layout2.present (Layout2.conversationId render)).
  - destruct (get "answer" response); reflexivity.
  - destruct (get "conversation_id" response) as [named|e]; [|reflexivity].
    destruct (get "answer" response); [|reflexivity].
    destruct (Layout2.present named); reflexivity.
Qed.

Lemma Layout1_resets_isLoading toFixed2 render clock net meanwhile content st :
  JsString.is_empty (JsString.trim content) || Layout1.isLoading render = false ->
  Layout1.isLoading
    (fst (Layout1.handleSendMessage toFixed2 render clock net meanwhile content st))
  = false.
Proof.
  intros Hguard. unfold Layout1.handleSendMessage. rewrite Hguard.
  destruct (Services.ask _ _ _ _ net) as [called [response|error]]; [|reflexivity].
  destruct (get "answer" response); [|reflexivity].
  destruct (Nat.eqb (List.length (Layout1.messages render)) 0); [|reflexivity].
  destruct (property "response_time" response) as [[]|]; reflexivity.
Qed.

(** An invocation that returns at the guard of the layout over
    [services/api] leaves the state, and so the flag, as it found it. *)
Lemma Layout1_early_return toFixed2 render clock net meanwhile content st :
  JsString.is_empty (JsString.trim content) || Layout1.isLoading render = true ->
  Layout1.handleSendMessage toFixed2 render clock net meanwhile content st
  = (st, []).
Proof. intros Hguard. unfold Layout1.handleSendMessage. now rewrite Hguard. Qed.

(** C9.  When an invocation of [handleSendMessage] that has called [/ask]
    completes, [isLoading] is [false], whether the call returned or threw,
    whether the [try] block threw after it, and whatever happened to the
    state while the call was awaited: the [finally] block is the last
    update.  (The layout over [lib/api] always calls; the layout over
    [services/api] calls once past its guard.) *)
Theorem handleSendMessage_resets_isLoading :
  forall toFixed2 render1 clock1 meanwhile1 st1
         Number_toString ToNumber render2 clock2 meanwhile2 st2
         net content,
    JsString.is_empty (JsString.trim content) || Layout1.isLoading render1 = false ->
    Layout1.isLoading
      (fst (Layout1.handleSendMessage toFixed2 render1 clock1 net
              meanwhile1 content st1)) = false
    /\ Layout2.isLoading
         (fst (Layout2.handleSendMessage Number_toString ToNumber
                 render2 clock2 net meanwhile2 content st2)) = false.
Proof.
  intros. split.
  - now apply Layout1_resets_isLoading.
  - apply Layout2_resets_isLoading.
Qed.

Lemma handleSendMessage_resets_isLoading_witness :
  JsString.is_empty (JsString.trim "hi") || Layout1.isLoading Concrete.Layout1_initial = false
  /\ Layout1.isLoading
       (fst (Layout1.handleSendMessage Concrete.toFixed2
               Concrete.Layout1_initial Concrete.clock1 Concrete.load_failed
               (fun st => Layout1.setIsLoading true st) "hi" Concrete.Layout1_initial))
     = false.
Proof.
  split; [reflexivity|].
  exact (proj1 (handleSendMessage_resets_isLoading
                  Concrete.toFixed2 Concrete.Layout1_initial
                  Concrete.clock1 (fun st => Layout1.setIsLoading true st)
                  Concrete.Layout1_initial
                  Concrete.integer_toString Concrete.ToNumber
                  Concrete.Layout2_initial Concrete.clock2 (fun st => st)
                  Concrete.Layout2_initial
                  Concrete.load_failed "hi" eq_refl)).
Defined.

(** The messages of the conversation when a send of the layout over
    [services/api] that got past its guard has ended. *)
Lemma Layout1_send_messages toFixed2 render clock net meanwhile content st :
  JsString.is_empty (JsString.trim content) || Layout1.isLoading render = false ->
  Layout1.messages
    (fst (Layout1.handleSendMessage toFixed2 render clock net meanwhile content st))
  = Layout1.messages
      (meanwhile
         (Layout1.setIsLoading true
            (Layout1.setMessages
               (fun prev => prev ++ [Layout1_userMessage clock content]) st)))
    ++ Layout1_replies render clock
         (snd (Services.ask json_value (fun data => data) content
                 (Layout1.selectedSource render) net)).
Proof.
  intros Hguard. unfold Layout1.handleSendMessage. rewrite Hguard.
  fold (Layout1_userMessage clock content).
  destruct (Services.ask json_value (fun data => data) content
              (Layout1.selectedSource render) net)
    as [called [response|error]]; [|reflexivity].
  cbn [snd Layout1_replies]. unfold Layout1_toast_throws, Layout1_aiMessage.
  destruct response;
    cbn [get property is_number negb andb];
    try reflexivity;
    destruct (Nat.eqb (List.length (Layout1.messages render)) 0);
    cbn [andb negb];
    try reflexivity;
    try (destruct (lookup "response_time" fields) as [[]|]);
    cbn [is_number negb fst Layout1.messages Layout1.setMessages Layout1.setIsLoading];
    try reflexivity; now rewrite <- app_assoc.
Qed.

(** The same for the layout over [lib/api]. *)
Lemma Layout2_send_messages Number_toString ToNumber render clock net meanwhile
      content st :
  Layout2.messages
    (fst (Layout2.handleSendMessage Number_toString ToNumber render clock net
            meanwhile content st))
  = Layout2.messages
      (meanwhile
         (Layout2.setIsLoading true
            (Layout2.setMessages
               (fun prev => prev ++ [Layout2_userMessage clock content]) st)))
    ++ [Layout2_reply ToNumber clock
          (snd (Lib.api_ask Number_toString json_value (fun data => data)
                  (Layout2_request render content) net))].
Proof.
  unfold Layout2.handleSendMessage.
  fold (Layout2_userMessage clock content).
  fold (Layout2_request render content).
  destruct (Lib.api_ask Number_toString json_value (fun data => data)
              (Layout2_request render content) net)
    as [called [error|response]]; [reflexivity|].
  cbn [snd Layout2_reply].
  destruct (Layout2.present (Layout2.conversationId render)).
  - destruct response; reflexivity.
  - destruct response; try reflexivity;
      cbn [get property];
      match goal with
      | |- context [Layout2.present ?v] => destruct (Layout2.present v)
      end; reflexivity.
Qed.

(** A first send answered without a numeric [response_time]: the answer
    is appended, the toast throws, and the error text follows it. *)
Example Layout1_first_answer_without_time :
  map Layout1.content
    (Layout1.messages
       (fst (Layout1.handleSendMessage Concrete.toFixed2 Concrete.Layout1_initial
               Concrete.clock1 Concrete.answered_without_time (fun st => st) "hi"
               Concrete.Layout1_initial)))
  = [Some (JString "hi"); Some (JString "Use a chain.");
     Layout1.content (Layout1_errorMessage Concrete.clock1)].
Proof. reflexivity. Qed.

(** A 2xx response whose body is [null]: either layout appends its error
    text and no answer, and the layout over [lib/api] shows the default
    text of its [catch] block. *)
Example null_body_is_an_error :
  Layout1.messages
    (fst (Layout1.handleSendMessage Concrete.toFixed2 Concrete.Layout1_initial
            Concrete.clock1 Concrete.answered_null (fun st => st) "hi"
            Concrete.Layout1_initial))
  = [Layout1_userMessage Concrete.clock1 "hi"; Layout1_errorMessage Concrete.clock1]
  /\ Layout2.messages
       (fst (Layout2.handleSendMessage Concrete.integer_toString Concrete.ToNumber
               Concrete.Layout2_initial Concrete.clock2 Concrete.answered_null
               (fun st => st) "hi" Concrete.Layout2_initial))
     = [Layout2_userMessage Concrete.clock2 "hi";
        Layout2_errorResponse Concrete.clock2 "Failed to get response from AI assistant."].
Proof. split; reflexivity. Qed.

(** The percentage is rounded after a multiplication of doubles, and
    [toFixed] rounds the double, not the literal. *)
Example rounding_of_doubles :
  JsNumber.Math_round
    (JsNumber.multiply (JsNumber.of_literal (285 # 1000)) (JsNumber.of_Z 100))
  = JsNumber.of_Z 28
  /\ JsNumber.Math_round
       (JsNumber.multiply (JsNumber.of_literal (15 # 1000)) (JsNumber.of_Z 100))
     = JsNumber.of_Z 2
  /\ Concrete.toFixed2 (JsNumber.of_literal (1005 # 1000)) = "1.00"
  /\ Concrete.toFixed2 (JsNumber.of_literal (1 # 8)) = "0.13".
Proof. repeat split; reflexivity. Qed.




(* ================================================================== *)
(** * Further properties of the code *)

(** ** More on strings *)

Lemma split_app_sep (sep : ascii) (a b : string) :
  JsString.split sep (a ++ String sep b) = JsString.split sep a ++ JsString.split sep b.
Proof.
  induction a as [|c a IH]; simpl.
  - now rewrite Ascii.eqb_refl.
  - destruct (Ascii.eqb c sep); [now rewrite IH|].
    rewrite IH.
    destruct (JsString.split sep a) as [|h t] eqn:E; [|reflexivity].
    destruct a; simpl in E; [discriminate E|].
    destruct (Ascii.eqb a sep); [discriminate E|].
    now destruct (JsString.split sep a0).
Qed.

Lemma trimEnd_idempotent (s : string) :
  JsString.trimEnd (JsString.trimEnd s) = JsString.trimEnd s.
Proof.
  induction s as [|c s IH]; [reflexivity|].
  simpl. destruct (JsString.trimEnd s) as [|d r] eqn:E.
  - destruct (JsString.is_whitespace c) eqn:W; simpl; [reflexivity|now rewrite W].
  - change (JsString.trimEnd (String c (String d r)))
      with (match JsString.trimEnd (String d r) with
            | EmptyString => if JsString.is_whitespace c then EmptyString
                             else String c EmptyString
            | String x y => String c (String x y)
            end).
    now rewrite IH.
Qed.

Lemma trimStart_clean (s : string) : starts_clean (JsString.trimStart s).
Proof.
  induction s as [|c s IH]; simpl; [exact I|].
  destruct (JsString.is_whitespace c) eqn:W; [exact IH | exact W].
Qed.

Lemma trimStart_of_clean (s : string) : starts_clean s -> JsString.trimStart s = s.
Proof. destruct s as [|c s]; simpl; [reflexivity | now intros ->]. Qed.

Lemma trimEnd_clean (s : string) : starts_clean s -> starts_clean (JsString.trimEnd s).
Proof.
  destruct s as [|c s]; simpl; [trivial|]. intros W.
  destruct (JsString.trimEnd s); [now rewrite W | exact W].
Qed.

Lemma trim_idempotent (s : string) : JsString.trim (JsString.trim s) = JsString.trim s.
Proof.
  unfold JsString.trim.
  rewrite (trimStart_of_clean (JsString.trimEnd (JsString.trimStart s))).
  - apply trimEnd_idempotent.
  - apply trimEnd_clean, trimStart_clean.
Qed.

(** ** More on the stream decoder *)

(** X1.  When the response of [/stream-ask] is not 2xx, or has no body,
    [askStream] throws [Stream error: <status>] after the one request: the
    callback is never invoked and nothing is logged. *)
Theorem askStream_bad_response :
  forall decode JSON_parse onChunk question sourceFilter response,
    stream_ok response = false \/ stream_body response = None ->
    Services.askStream decode JSON_parse onChunk question sourceFilter
      (StreamResolves response)
    = ([Fetch (Services.askStream_request question sourceFilter)],
       Throws {| class := Error;
                 Js.message := "Stream error: " ++ JsString.of_Z (stream_status response) |}).
Proof.
  intros decode JSON_parse onChunk question sourceFilter response H.
  unfold Services.askStream.
  destruct H as [H|H]; rewrite H.
  - reflexivity.
  - now destruct (stream_ok response).
Qed.

Lemma askStream_bad_response_witness :
  stream_ok {| stream_status := 503; stream_body := Some {| reads := []; ending := Done |} |}
  = false
  /\ callbacks
       (fst (Services.askStream Services.decode_ascii JSON_parse (fun _ => true) "q" None
               (StreamResolves
                  {| stream_status := 503;
                     stream_body := Some {| reads := []; ending := Done |} |})))
     = [].
Proof.
  split; [reflexivity|].
  rewrite (askStream_bad_response Services.decode_ascii JSON_parse (fun _ => true) "q" None
             {| stream_status := 503; stream_body := Some {| reads := []; ending := Done |} |}
             (or_introl eq_refl)).
  reflexivity.
Defined.

(** X2.  When a read of the body fails, [askStream] throws the error of
    that read, and everything the reads before it made the loop do has been
    done: the trace is the one of the same chunks followed by a normal end. *)
Theorem askStream_failed_read :
  forall decode JSON_parse onChunk question sourceFilter st chunks e,
    stream_ok {| stream_status := st;
                 stream_body := Some {| reads := chunks; ending := Errored e |} |} = true ->
    Services.askStream decode JSON_parse onChunk question sourceFilter
      (StreamResolves {| stream_status := st;
                         stream_body := Some {| reads := chunks; ending := Errored e |} |})
    = (fst (Services.askStream decode JSON_parse onChunk question sourceFilter
              (StreamResolves {| stream_status := st;
                                 stream_body := Some {| reads := chunks; ending := Done |} |})),
       Throws e).
Proof.
  intros decode JSON_parse onChunk question sourceFilter st chunks e Hok.
  rewrite !askStream_ok by exact Hok. simpl. f_equal. f_equal.
  rewrite <- (app_nil_r chunks) at 1.
  rewrite read_loop_app. simpl. now rewrite app_nil_r.
Qed.

Lemma askStream_failed_read_witness :
  Services.askStream Services.decode_ascii JSON_parse (fun _ => true) "q" None
    (StreamResolves
       {| stream_status := 200;
          stream_body :=
            Some {| reads := [list_byte_of_string Concrete.first_event];
                    ending := Errored Concrete.failed_to_fetch |} |})
  = ([Fetch (Services.askStream_request "q" None); OnChunk Concrete.a1],
     Throws Concrete.failed_to_fetch).
Proof.
  exact (askStream_failed_read Services.decode_ascii JSON_parse (fun _ => true) "q" None
           200%Z [list_byte_of_string Concrete.first_event] Concrete.failed_to_fetch eq_refl).
Defined.

Section Callbacks.
Variable decode : list Byte.byte -> string.
Variable JSON_parse : string -> option json_value.
Variables onChunk1 onChunk2 : json_value -> bool.

Lemma on_line_callbacks_any line :
  callbacks (Services.on_line JSON_parse onChunk1 line)
  = callbacks (Services.on_line JSON_parse onChunk2 line).
Proof.
  unfold Services.on_line.
  destruct (JsString.startsWith "data: " line); [|reflexivity].
  destruct (JSON_parse (JsString.slice 6 line)) as [data|]; [|reflexivity].
  simpl. now destruct (onChunk1 data), (onChunk2 data).
Qed.

Lemma for_lines_callbacks_any lines :
  callbacks (Services.for_lines JSON_parse onChunk1 lines)
  = callbacks (Services.for_lines JSON_parse onChunk2 lines).
Proof.
  induction lines as [|line lines IH]; [reflexivity|].
  simpl. now rewrite !callbacks_app, IH, on_line_callbacks_any.
Qed.

Lemma read_loop_callbacks_any pending last :
  callbacks (fst (Services.read_loop decode JSON_parse onChunk1 pending last))
  = callbacks (fst (Services.read_loop decode JSON_parse onChunk2 pending last)).
Proof.
  induction pending as [|value rest IH].
  - now destruct last.
  - rewrite !read_loop_cons. simpl.
    now rewrite !callbacks_app, IH, for_lines_callbacks_any.
Qed.

End Callbacks.

(** X3.  An exception thrown by the callback is caught inside the loop: for
    any two callbacks, whichever of their calls throw, [askStream] hands
    over the same values in the same order and ends the same way. *)
Theorem askStream_callback_exceptions_contained :
  forall decode JSON_parse onChunk1 onChunk2 question sourceFilter net,
    callbacks (fst (Services.askStream decode JSON_parse onChunk1 question sourceFilter net))
    = callbacks (fst (Services.askStream decode JSON_parse onChunk2 question sourceFilter net))
    /\ snd (Services.askStream decode JSON_parse onChunk1 question sourceFilter net)
       = snd (Services.askStream decode JSON_parse onChunk2 question sourceFilter net).
Proof.
  intros decode JSON_parse onChunk1 onChunk2 question sourceFilter net.
  destruct net as [e|[st [stream|]]].
  - now split.
  - destruct (stream_ok {| stream_status := st; stream_body := Some stream |}) eqn:Hok.
    + rewrite !askStream_ok by exact Hok. simpl. split; [|reflexivity].
      apply read_loop_callbacks_any.
    + rewrite !askStream_bad_response by now left. now split.
  - rewrite !askStream_bad_response by now right. now split.
Qed.

Lemma string_app_assoc (a b c : string) : ((a ++ b) ++ c)%string = (a ++ b ++ c)%string.
Proof. induction a as [|x a IH]; simpl; [reflexivity | now rewrite IH]. Qed.

Lemma for_lines_line_end JSON_parse onChunk (sep : ascii) (text : string) :
  Services.for_lines JSON_parse onChunk
    (JsString.split sep (text ++ String sep EmptyString))
  = Services.for_lines JSON_parse onChunk (JsString.split sep text).
Proof.
  rewrite split_app_sep, for_lines_app. simpl. apply app_nil_r.
Qed.

(** X4.  A stream cut where a line ends loses nothing: when the text of a
    read ends with a line feed, and decoding the two reads joined gives the
    two texts joined, the two reads make [askStream] do exactly what the one
    joined read does. *)
Theorem askStream_cut_on_line_boundary :
  forall decode JSON_parse onChunk question sourceFilter st before first second after
         last text,
    stream_ok {| stream_status := st;
                 stream_body := Some {| reads := before ++ first :: second :: after;
                                        ending := last |} |} = true ->
    decode first = (text ++ String Services.newline EmptyString)%string ->
    decode (first ++ second) = (decode first ++ decode second)%string ->
    Services.askStream decode JSON_parse onChunk question sourceFilter
      (StreamResolves {| stream_status := st;
                         stream_body := Some {| reads := before ++ first :: second :: after;
                                                ending := last |} |})
    = Services.askStream decode JSON_parse onChunk question sourceFilter
        (StreamResolves {| stream_status := st;
                           stream_body := Some {| reads := before ++ (first ++ second) :: after;
                                                  ending := last |} |}).
Proof.
  intros decode JSON_parse onChunk question sourceFilter st before first second after
         last text Hok Hfirst Hjoin.
  rewrite !askStream_ok by exact Hok. simpl. f_equal. f_equal.
  rewrite !read_loop_app, !read_loop_cons. simpl. f_equal.
  rewrite Hjoin, Hfirst, app_assoc. f_equal.
  rewrite for_lines_line_end, string_app_assoc. simpl.
  now rewrite split_app_sep, for_lines_app.
Qed.

Lemma askStream_cut_on_line_boundary_witness :
  Services.decode_ascii (list_byte_of_string Concrete.first_event)
  = ("data: {" ++ Concrete.quoted "a" ++ ":1}" ++ String Services.newline EmptyString)%string
  /\ Concrete.askStream [Concrete.first_event; Concrete.second_event]
     = Services.askStream Services.decode_ascii JSON_parse (fun _ => true) "q" None
         (Services.ok_stream
            [list_byte_of_string Concrete.first_event
               ++ list_byte_of_string Concrete.second_event]).
Proof.
  split; [reflexivity|].
  exact (askStream_cut_on_line_boundary
           Services.decode_ascii JSON_parse (fun _ => true) "q" None 200%Z []
           (list_byte_of_string Concrete.first_event)
           (list_byte_of_string Concrete.second_event) [] Done
           ("data: {" ++ Concrete.quoted "a" ++ ":1}")%string
           eq_refl eq_refl eq_refl).
Defined.

(** ** More on the two HTTP clients *)

(** X5.  [DocuMentorAPI.ask] sends one request whatever happens.  It
    returns only when [fetch] resolved with a 2xx response whose body is
    JSON, and then logs nothing; in every other case it throws and has
    logged exactly one [Error calling ask API:]. *)
Theorem ask_returns_or_logs :
  forall (T : Type) (as_T : json_value -> T) question sourceFilter net,
    match snd (Services.ask T as_T question sourceFilter net) with
    | Returns answer =>
        fst (Services.ask T as_T question sourceFilter net)
        = [Fetch (Services.ask_request question sourceFilter)]
        /\ exists response data,
             net = Resolves response /\ ok response = true
             /\ json response = Returns data /\ answer = as_T data
    | Throws _ =>
        fst (Services.ask T as_T question sourceFilter net)
        = [Fetch (Services.ask_request question sourceFilter);
           ConsoleError "Error calling ask API:"]
        /\ forall response data,
             net = Resolves response -> json response = Returns data ->
             ok response = false
    end.
Proof.
  intros T as_T question sourceFilter net.
  unfold Services.ask.
  destruct net as [e|response].
  - split; [reflexivity|]. intros response data H. discriminate H.
  - destruct (ok response) eqn:Hok; simpl.
    + destruct (json response) as [data|e] eqn:Hjson.
      * split; [reflexivity|]. now exists response, data.
      * split; [reflexivity|]. intros r d H Hd. injection H as <-.
        rewrite Hjson in Hd. discriminate Hd.
    + split; [reflexivity|]. intros r d H _. now injection H as <-.
Qed.

(** X6.  [DocuMentorAPI.search] and [getStats] have no [try]: each sends
    one request and never logs, throws the error of a rejected [fetch]
    unchanged and [API error: <status>] for a response that is not 2xx, and
    returns the body of a 2xx response that is JSON.  [getStats] is a GET
    of [/stats] without body; the body of [search] has [query], [k] (10
    when the caller gives none) and [source_filter] exactly when a filter
    is given. *)
Theorem search_sends_once_and_never_logs :
  forall (T : Type) (as_T : json_value -> T) query k sourceFilter net,
    fst (Services.search T as_T query k sourceFilter net)
    = [Fetch (Services.search_request query k sourceFilter)]
    /\ fst (Services.getStats T as_T net)
       = [Fetch {| url := "http://localhost:8000/stats";
                   method := "GET";
                   headers := [];
                   body := None |}]
    /\ (forall e,
           snd (Services.search T as_T query k sourceFilter (Rejects e)) = Throws e
           /\ snd (Services.getStats T as_T (Rejects e)) = Throws e)
    /\ (forall response,
           ok response = false ->
           snd (Services.search T as_T query k sourceFilter (Resolves response))
           = Throws {| class := Error;
                       Js.message := "API error: " ++ JsString.of_Z (Js.status response) |}
           /\ snd (Services.getStats T as_T (Resolves response))
              = Throws {| class := Error;
                          Js.message := "API error: " ++ JsString.of_Z (Js.status response) |})
    /\ (forall response data,
           ok response = true ->
           json response = Returns data ->
           snd (Services.search T as_T query k sourceFilter (Resolves response))
           = Returns (as_T data)
           /\ snd (Services.getStats T as_T (Resolves response)) = Returns (as_T data))
    /\ exists fields,
         body (Services.search_request query k sourceFilter) = Some (JObject fields)
         /\ url (Services.search_request query k sourceFilter) = "http://localhost:8000/search"
         /\ method (Services.search_request query k sourceFilter) = "POST"
         /\ lookup "query" fields = Some (JString query)
         /\ lookup "k" fields
            = Some (JNumber (match k with Some given => given | None => (10 # 1)%Q end))
         /\ lookup "source_filter" fields = option_map JString sourceFilter.
Proof.
  intros T as_T query k sourceFilter net.
  assert (Honce : forall request,
             fst (Services.checked T as_T request net) = [Fetch request]).
  { intros request. unfold Services.checked.
    destruct net as [e|r]; [reflexivity|].
    destruct (ok r); [|reflexivity]. now destruct (json r). }
  split; [apply Honce|]. split; [apply Honce|].
  split; [intros e; split; reflexivity|]. split; [|split].
  - intros response Hok. unfold Services.search, Services.getStats, Services.checked.
    rewrite Hok. split; reflexivity.
  - intros response data Hok Hjson.
    unfold Services.search, Services.getStats, Services.checked.
    rewrite Hok, Hjson. split; reflexivity.
  - eexists. split; [reflexivity|].
    destruct sourceFilter; repeat split.
Qed.

(** X7.  A 2xx response whose body cannot be read as JSON (an empty body,
    for one) is no success for [apiRequest]: unless the read failed with a
    [TypeError], it throws the generic error with status 500 and status text
    [Unknown Error], and not the status of the response. *)
Theorem apiRequest_unreadable_success_body :
  forall Number_toString (T : Type) (as_T : json_value -> T) endpoint options response e,
    ok response = true ->
    json response = Throws e ->
    class e <> TypeError ->
    snd (Lib.apiRequest Number_toString T as_T endpoint options (Resolves response))
    = inl Lib.unexpected_error
    /\ Lib.status Lib.unexpected_error <> Js.status response.
Proof.
  intros Number_toString T as_T endpoint options response e Hok Hjson Hclass.
  split.
  - unfold Lib.apiRequest. rewrite Hok, Hjson. simpl.
    unfold Lib.on_caught. destruct (class e); try reflexivity. now destruct Hclass.
  - simpl. intros H. unfold ok in Hok. rewrite <- H in Hok. discriminate Hok.
Qed.

Lemma apiRequest_unreadable_success_body_witness :
  ok (response_of_text 204 "No Content" "") = true
  /\ snd (Concrete.apiRequest (Resolves (response_of_text 204 "No Content" "")))
     = inl Lib.unexpected_error.
Proof.
  split; [reflexivity|].
  refine (proj1 (apiRequest_unreadable_success_body
                   Concrete.integer_toString json_value (fun data => data) "/ask"
                   Concrete.no_options (response_of_text 204 "No Content" "")
                   {| class := SyntaxError; Js.message := "Unexpected end of JSON input" |}
                   eq_refl eq_refl _)).
  intros H. discriminate H.
Defined.

Lemma serialize_char_safe (c : ascii) :
  forallb query_safe (list_ascii_of_string (URLSearchParams.serialize_char c)) = true.
Proof.
  destruct c as [[] [] [] [] [] [] [] []]; reflexivity.
Qed.

Lemma list_ascii_of_string_app (a b : string) :
  list_ascii_of_string (a ++ b) = list_ascii_of_string a ++ list_ascii_of_string b.
Proof. induction a as [|c a IH]; simpl; [reflexivity | now rewrite IH]. Qed.

Lemma serialize_safe (text : string) :
  forallb query_safe (list_ascii_of_string (URLSearchParams.serialize text)) = true.
Proof.
  induction text as [|c text IH]; [reflexivity|].
  simpl. now rewrite list_ascii_of_string_app, forallb_app, serialize_char_safe, IH.
Qed.

(** X8.  [api.search] sends one GET to [/search?] followed by the
    parameters: [query] always, [source] unless it is missing or empty,
    [limit] unless it is missing or zero, in that order and joined by [&].
    Every name and value is written with letters, digits, [* - . _], [+]
    and percent escapes only, so no [&], [=], [#], [?] or space of the
    text typed can end a parameter. *)
Theorem api_search_query_string :
  forall Number_toString (T : Type) (as_T : json_value -> T) request net,
    fst (Lib.api_search Number_toString T as_T request net)
    = [Fetch {| url := "http://localhost:8000/search?"
                         ++ URLSearchParams.toString (Lib.search_params Number_toString request);
                method := "GET";
                headers := [("Content-Type", "application/json")];
                body := None |}]
    /\ URLSearchParams.toString (Lib.search_params Number_toString request)
       = ("query=" ++ URLSearchParams.serialize (Types.Search.query request)
            ++ match Types.Search.source request with
               | Some (String c r) => "&source=" ++ URLSearchParams.serialize (String c r)
               | _ => ""
               end
            ++ match Types.Search.limit request with
               | Some limit =>
                   if (Qnum limit =? 0)%Z then ""
                   else "&limit=" ++ URLSearchParams.serialize (Number_toString limit)
               | None => ""
               end)%string
    /\ (forall text,
           forallb query_safe (list_ascii_of_string (URLSearchParams.serialize text)) = true)
    /\ map query_safe (list_ascii_of_string "&=#? /")
       = [false; false; false; false; false; false].
Proof.
  intros Number_toString T as_T [query source limit] net.
  split; [|split; [|split; [apply serialize_safe | reflexivity]]].
  - unfold Lib.api_search, Lib.apiRequest.
    destruct net as [e|r]; [reflexivity|].
    destruct (ok r); [|reflexivity]. now destruct (json r).
  - unfold Lib.search_params. cbn [Types.Search.query Types.Search.source Types.Search.limit].
    destruct source as [[|c r]|], limit as [limit|];
      cbn [JsString.is_empty app];
      try destruct (Qnum limit =? 0)%Z;
      cbn [URLSearchParams.toString app];
      change (URLSearchParams.serialize "query") with "query";
      change (URLSearchParams.serialize "source") with "source";
      change (URLSearchParams.serialize "limit") with "limit";
      rewrite ?append_empty_r, ?string_app_assoc; reflexivity.
Qed.

(** ** The text box *)

Lemma is_empty_length (s : string) :
  JsString.is_empty s = negb (Nat.ltb 0 (String.length s)).
Proof. now destruct s. Qed.

(** X9.  The send button and the guard of [handleSubmit] agree: with
    [canSubmit], [handleSubmit] calls [onSubmit] with the trimmed value, and
    without it, it does nothing.  The key handler submits on Enter with Ctrl
    or Meta held, and on no other key. *)
Theorem ChatInput_submits_exactly_when_canSubmit :
  forall (S : Type) value disabled (onSubmit : string -> handler S) e,
    ChatInput.handleSubmit value disabled onSubmit
    = (if ChatInput.canSubmit value disabled then onSubmit (JsString.trim value) else skip)
    /\ ChatInput.handleKeyDown value disabled onSubmit e
       = (if String.eqb (ChatInput.key e) "Enter"
             && (ChatInput.ctrlKey e || ChatInput.metaKey e)
          then (true, if ChatInput.canSubmit value disabled
                      then onSubmit (JsString.trim value) else skip)
          else (false, skip)).
Proof.
  intros S value disabled onSubmit e.
  assert (H : ChatInput.handleSubmit value disabled onSubmit
              = (if ChatInput.canSubmit value disabled
                 then onSubmit (JsString.trim value) else skip)).
  { unfold ChatInput.handleSubmit, ChatInput.canSubmit.
    rewrite is_empty_length.
    now destruct (Nat.ltb 0 (String.length (JsString.trim value))), disabled. }
  split; [exact H|].
  unfold ChatInput.handleKeyDown. now rewrite H.
Qed.

(** X10.  What [handleSubmit] hands to [onSubmit] is never empty and has
    no white space at either end: it is a text that [trim] leaves as it
    is. *)
Theorem ChatInput_submits_trimmed_text :
  forall (S : Type) value disabled (onSubmit : string -> handler S),
    ChatInput.handleSubmit value disabled onSubmit = skip
    \/ exists text,
         ChatInput.handleSubmit value disabled onSubmit = onSubmit text
         /\ text <> EmptyString
         /\ JsString.trim text = text
         /\ starts_clean text.
Proof.
  intros S value disabled onSubmit.
  unfold ChatInput.handleSubmit.
  destruct (JsString.is_empty (JsString.trim value)) eqn:E; [now left|].
  destruct disabled; [now left|]. right.
  exists (JsString.trim value). split; [reflexivity|]. split; [|split].
  - intros H. rewrite H in E. discriminate E.
  - apply trim_idempotent.
  - apply trimEnd_clean, trimStart_clean.
Qed.

(** The first thing a send of the layout over [services/api] does once
    past its guard is the request. *)
Lemma Layout1_send_fetch toFixed2 render clock net meanwhile content st :
  JsString.is_empty (JsString.trim content) || Layout1.isLoading render = false ->
  hd_error (snd (Layout1.handleSendMessage toFixed2 render clock net meanwhile content st))
  = Some (Fetch (Services.ask_request content (Layout1.selectedSource render))).
Proof.
  intros Hguard. unfold Layout1.handleSendMessage. rewrite Hguard.
  unfold Services.ask.
  destruct net as [e|r]; [reflexivity|].
  destruct (ok r); cbn [negb]; [|reflexivity].
  destruct (json r) as [data|e]; [|reflexivity].
  destruct (get "answer" data); [|reflexivity].
  destruct (Nat.eqb (List.length (Layout1.messages render)) 0); [|reflexivity].
  destruct (property "response_time" data) as [[]|]; reflexivity.
Qed.

(** What the layout over [services/api] appends after the call: an
    assistant message, and at most the error text after it, which needs a
    render without messages. *)
Lemma Layout1_replies_shape render clock outcome :
  exists reply later,
    Layout1_replies render clock outcome = reply :: later
    /\ Layout1.role reply = assistant
    /\ (later = [] \/ later = [Layout1_errorMessage clock])
    /\ (Layout1.messages render <> [] -> later = []).
Proof.
  assert (Hthrows : forall response,
             Layout1.messages render <> [] ->
             Layout1_toast_throws render response = false).
  { intros response H. unfold Layout1_toast_throws.
    destruct (Layout1.messages render); [now destruct H | reflexivity]. }
  destruct outcome as [response|e].
  - destruct response; cbn [Layout1_replies];
      try (do 2 eexists; split; [reflexivity|]; split; [reflexivity|];
           split; [now left | reflexivity]);
      match goal with
      | |- context [Layout1_toast_throws render ?r] =>
          pose proof (Hthrows r) as H;
          destruct (Layout1_toast_throws render r);
          do 2 eexists; (split; [reflexivity|]); (split; [reflexivity|]);
          (split; [auto|]); intros Hmessages;
          [discriminate (H Hmessages) | reflexivity]
      end.
  - do 2 eexists. split; [reflexivity|]. split; [reflexivity|].
    split; [now left | reflexivity].
Qed.

(** When the error text follows the answer. *)
Lemma Layout1_second_reply render clock outcome reply later :
  Layout1_replies render clock outcome = reply :: later ->
  later <> [] <->
  exists response,
    outcome = Returns response
    /\ response <> JNull
    /\ Layout1.messages render = []
    /\ is_number (property "response_time" response) = false.
Proof.
  intros Hreplies. split.
  - intros Hlater. destruct outcome as [response|e].
    + exists response.
      destruct response; cbn [Layout1_replies] in Hreplies;
        injection Hreplies as _ <-;
        try (now destruct Hlater);
        (split; [reflexivity|]; split; [discriminate|];
         unfold Layout1_toast_throws in Hlater;
         destruct (Layout1.messages render); [|now destruct Hlater];
         split; [reflexivity|];
         match goal with
         | |- is_number ?v = false => destruct (is_number v)
         end; [now destruct Hlater | reflexivity]).
    + cbn [Layout1_replies] in Hreplies. injection Hreplies as _ <-.
      now destruct Hlater.
  - intros (response & -> & Hnull & Hmessages & Hnumber).
    destruct response; [now destruct Hnull|..];
      cbn [Layout1_replies] in Hreplies; injection Hreplies as _ <-;
      unfold Layout1_toast_throws; rewrite Hmessages, Hnumber; discriminate.
Qed.

Lemma Layout2_reply_role ToNumber clock outcome :
  Layout2.role (Layout2_reply ToNumber clock outcome) = assistant.
Proof. destruct outcome as [error|[]]; reflexivity. Qed.

(** [api.ask] sends one request. *)
Lemma api_ask_trace Number_toString (T : Type) (as_T : json_value -> T) request net :
  fst (Lib.api_ask Number_toString T as_T request net)
  = [Fetch (Lib.config "/ask"
              {| Lib.init_method := Some "POST";
                 Lib.init_headers := None;
                 Lib.init_body := Some (JObject (JSON_stringify
                   [("question", Some (JString (Types.question request)));
                    ("source", option_map JString (Types.source request));
                    ("conversation_id", Types.conversation_id request)])) |})].
Proof.
  unfold Lib.api_ask, Lib.apiRequest.
  destruct net as [e|r]; [reflexivity|].
  destruct (ok r); [|reflexivity]. now destruct (json r).
Qed.

(** What a send of the layout over [lib/api] does begins with what
    [api.ask] does. *)
Lemma Layout2_send_trace Number_toString ToNumber render clock net meanwhile content st :
  exists done,
    snd (Layout2.handleSendMessage Number_toString ToNumber render clock net
           meanwhile content st)
    = fst (Lib.api_ask Number_toString json_value (fun data => data)
             (Layout2_request render content) net) ++ done.
Proof.
  unfold Layout2.handleSendMessage.
  fold (Layout2_request render content).
  destruct (Lib.api_ask Number_toString json_value (fun data => data)
              (Layout2_request render content) net)
    as [called [error|response]]; [eexists; reflexivity|].
  destruct (Layout2.present (Layout2.conversationId render)).
  - destruct (get "answer" response); eexists; reflexivity.
  - destruct (get "conversation_id" response) as [named|e]; [|eexists; reflexivity].
    destruct (get "answer" response); [|eexists; reflexivity].
    destruct (Layout2.present named); eexists; reflexivity.
Qed.

(** What the layout over [lib/api] does besides the state, when the call
    fails. *)
Lemma Layout2_failure_effects Number_toString ToNumber render clock net meanwhile
      content st error :
  snd (Lib.api_ask Number_toString json_value (fun data => data)
         (Layout2_request render content) net)
  = inl error ->
  snd (Layout2.handleSendMessage Number_toString ToNumber render clock net
         meanwhile content st)
  = fst (Lib.api_ask Number_toString json_value (fun data => data)
           (Layout2_request render content) net)
    ++ [ConsoleError "Error sending message:";
        Toast {| title := "Connection Error";
                 description := Lib.message error;
                 variant := Some "destructive" |}].
Proof.
  unfold Layout2.handleSendMessage.
  fold (Layout2_request render content).
  destruct (Lib.api_ask Number_toString json_value (fun data => data)
              (Layout2_request render content) net)
    as [called [err|response]]; cbn [fst snd]; intros H; [|discriminate H].
  now injection H as ->.
Qed.

(** The conversation id the layout over [lib/api] ends with. *)
Lemma Layout2_send_conversationId Number_toString ToNumber render clock net meanwhile
      content st :
  Layout2.conversationId
    (fst (Layout2.handleSendMessage Number_toString ToNumber render clock net
            meanwhile content st))
  = let pending :=
      meanwhile (Layout2.setIsLoading true
                   (Layout2.setMessages
                      (fun prev => prev ++ [Layout2_userMessage clock content]) st)) in
    match snd (Lib.api_ask Number_toString json_value (fun data => data)
                 (Layout2_request render content) net) with
    | inr response =>
        match Layout2.present (Layout2.conversationId render),
              Layout2.present (property "conversation_id" response) with
        | None, Some named => Some named
        | _, _ => Layout2.conversationId pending
        end
    | inl _ => Layout2.conversationId pending
    end.
Proof.
  unfold Layout2.handleSendMessage.
  fold (Layout2_userMessage clock content).
  fold (Layout2_request render content).
  destruct (Lib.api_ask Number_toString json_value (fun data => data)
              (Layout2_request render content) net)
    as [called [error|response]]; [reflexivity|].
  cbn [snd].
  destruct (Layout2.present (Layout2.conversationId render)).
  - destruct response; reflexivity.
  - destruct response; try reflexivity;
      cbn [get property];
      match goal with
      | |- context [Layout2.present ?v] => destruct (Layout2.present v)
      end; reflexivity.
Qed.

(** X11.  A text that is not blank, sent from the text box of the chat
    while nothing is loading, reaches the layout over [services/api]
    trimmed: the question of the request and the content of the user
    message are [value.trim()], and the text box is emptied.  The chat is
    shown for a conversation that is not empty, and there the send appends
    one message after the user message. *)
Theorem chat_path_sends_trimmed_text :
  forall toFixed2 render clock net meanwhile value st,
    JsString.is_empty (JsString.trim value) = false ->
    Layout1.isLoading render = false ->
    exists after done u reply later,
      SendPath.chat false
        (Layout1.handleSendMessage toFixed2 render clock net meanwhile) (value, st)
      = ((EmptyString, after), done)
      /\ hd_error done
         = Some (Fetch (Services.ask_request (JsString.trim value)
                          (Layout1.selectedSource render)))
      /\ Layout1.messages after
         = Layout1.messages
             (meanwhile (Layout1.setIsLoading true
                           (Layout1.setMessages (fun prev => prev ++ [u]) st)))
           ++ reply :: later
      /\ (Layout1.messages render <> [] -> later = [])
      /\ Layout1.role u = user
      /\ Layout1.content u = Some (JString (JsString.trim value)).
Proof.
  intros toFixed2 render clock net meanwhile value st Hvalue Hloading.
  assert (Hguard : JsString.is_empty (JsString.trim (JsString.trim value))
                   || Layout1.isLoading render = false).
  { now rewrite trim_idempotent, Hvalue, Hloading. }
  unfold SendPath.chat, ChatInput.handleSubmit. rewrite Hvalue. cbn [negb orb].
  unfold ChatInterface.handleSubmit. rewrite trim_idempotent, Hvalue. cbn [negb orb].
  pose proof (Layout1_send_messages toFixed2 render clock net meanwhile
                (JsString.trim value) st Hguard) as Hmessages.
  pose proof (Layout1_send_fetch toFixed2 render clock net meanwhile
                (JsString.trim value) st Hguard) as Hfetch.
  destruct (Layout1.handleSendMessage toFixed2 render clock net meanwhile
              (JsString.trim value) st) as [after done].
  cbn [fst snd] in Hmessages, Hfetch.
  destruct (Layout1_replies_shape render clock
              (snd (Services.ask json_value (fun data => data) (JsString.trim value)
                      (Layout1.selectedSource render) net)))
    as (reply & later & Hreplies & _ & _ & Hlast).
  rewrite Hreplies in Hmessages.
  exists after, done, (Layout1_userMessage clock (JsString.trim value)), reply, later.
  split; [reflexivity|]. split; [exact Hfetch|]. split; [exact Hmessages|].
  split; [exact Hlast|]. now split.
Qed.

Lemma chat_path_sends_trimmed_text_witness :
  JsString.is_empty (JsString.trim "  hi ") = false
  /\ Layout1.isLoading Concrete.Layout1_initial = false
  /\ exists after done,
       SendPath.chat false
         (Layout1.handleSendMessage Concrete.toFixed2
            Concrete.Layout1_initial Concrete.clock1 Concrete.answered (fun st => st))
         ("  hi ", Concrete.Layout1_initial)
       = ((EmptyString, after), done)
       /\ hd_error done = Some (Fetch (Services.ask_request "hi" None)).
Proof.
  split; [reflexivity|]. split; [reflexivity|].
  destruct (chat_path_sends_trimmed_text
              Concrete.toFixed2 Concrete.Layout1_initial
              Concrete.clock1 Concrete.answered (fun st => st) "  hi "
              Concrete.Layout1_initial eq_refl eq_refl)
    as (after & done & u & reply & later & Hrun & Hfetch & _).
  exists after, done. split; [exact Hrun | exact Hfetch].
Defined.

(** ** More on the conversation handlers *)

(** X12.  Every send that calls [/ask] appends the user message with the
    text sent, before the call, and the part of the assistant after it: one
    message, the answer or the error text.  In the layout over
    [services/api] the error text follows the answer as a second message
    exactly when the call returned a body that is not [null], the render
    had no message and [response_time] is not a number, which is when the
    toast of a first answer throws.  With nothing else happening meanwhile
    the conversation is the old one followed by these. *)
Theorem send_appends_user_then_assistant :
  forall toFixed2 render1 clock1 st1
         Number_toString ToNumber render2 clock2 st2
         net content,
    JsString.is_empty (JsString.trim content) || Layout1.isLoading render1 = false ->
    (exists reply later,
        Layout1.messages
          (fst (Layout1.handleSendMessage toFixed2 render1 clock1 net
                  (fun st => st) content st1))
        = Layout1.messages st1 ++ Layout1_userMessage clock1 content :: reply :: later
        /\ Layout1.role reply = assistant
        /\ (later = [] \/ later = [Layout1_errorMessage clock1])
        /\ (later <> [] <->
            exists response,
              snd (Services.ask json_value (fun data => data) content
                     (Layout1.selectedSource render1) net) = Returns response
              /\ response <> JNull
              /\ Layout1.messages render1 = []
              /\ is_number (property "response_time" response) = false))
    /\ (exists reply,
           Layout2.messages
             (fst (Layout2.handleSendMessage Number_toString ToNumber render2
                     clock2 net (fun st => st) content st2))
           = Layout2.messages st2 ++ [Layout2_userMessage clock2 content; reply]
           /\ Layout2.role reply = assistant).
Proof.
  intros toFixed2 render1 clock1 st1 Number_toString ToNumber render2
         clock2 st2 net content Hguard.
  split.
  - rewrite Layout1_send_messages by exact Hguard.
    cbn [Layout1.messages Layout1.setMessages Layout1.setIsLoading].
    destruct (Layout1_replies_shape render1 clock1
                (snd (Services.ask json_value (fun data => data) content
                        (Layout1.selectedSource render1) net)))
      as (reply & later & Hreplies & Hrole & Hlater & _).
    rewrite Hreplies, <- app_assoc.
    exists reply, later. split; [reflexivity|]. split; [exact Hrole|].
    split; [exact Hlater|].
    exact (Layout1_second_reply _ _ _ _ _ Hreplies).
  - eexists. rewrite Layout2_send_messages.
    cbn [Layout2.messages Layout2.setMessages Layout2.setIsLoading].
    rewrite <- app_assoc. split; [reflexivity|].
    apply Layout2_reply_role.
Qed.

Lemma send_appends_user_then_assistant_witness :
  JsString.is_empty (JsString.trim "hi") || Layout1.isLoading Concrete.Layout1_initial = false
  /\ exists reply later,
       Layout1.messages
         (fst (Layout1.handleSendMessage Concrete.toFixed2
                 Concrete.Layout1_initial Concrete.clock1 Concrete.answered_without_time
                 (fun st => st) "hi" Concrete.Layout1_initial))
       = [] ++ Layout1_userMessage Concrete.clock1 "hi" :: reply :: later
       /\ Layout1.content reply = Some (JString "Use a chain.")
       /\ later = [Layout1_errorMessage Concrete.clock1].
Proof.
  split; [reflexivity|].
  destruct (proj1 (send_appends_user_then_assistant
                     Concrete.toFixed2 Concrete.Layout1_initial
                     Concrete.clock1 Concrete.Layout1_initial
                     Concrete.integer_toString Concrete.ToNumber
                     Concrete.Layout2_initial Concrete.clock2 Concrete.Layout2_initial
                     Concrete.answered_without_time "hi" eq_refl))
    as (reply & later & Hmessages & _).
  exists reply, later. split; [exact Hmessages|].
  cbn in Hmessages. injection Hmessages as <- <-. split; reflexivity.
Defined.

(** What [DocuMentorAPI.ask] has done when it throws. *)
Lemma ask_throws_trace (T : Type) (as_T : json_value -> T) question sourceFilter net e :
  snd (Services.ask T as_T question sourceFilter net) = Throws e ->
  fst (Services.ask T as_T question sourceFilter net)
  = [Fetch (Services.ask_request question sourceFilter);
     ConsoleError "Error calling ask API:"].
Proof.
  unfold Services.ask. destruct net as [e'|response]; [reflexivity|].
  destruct (ok response); [|reflexivity].
  destruct (json response); [intros H; discriminate H | reflexivity].
Qed.

(** X13.  The layout over [services/api] shows every failure of the call
    the same way: whether [fetch] was rejected, the status was not 2xx or
    the body was not JSON, the state it ends in, and with it the message
    appended, the toasts it shows and the request it sent are identical;
    nothing of the error reaches the user interface. *)
Theorem Layout1_failures_look_alike :
  forall toFixed2 render clock meanwhile content st net1 net2 e1 e2,
    snd (Services.ask json_value (fun data => data) content
           (Layout1.selectedSource render) net1) = Throws e1 ->
    snd (Services.ask json_value (fun data => data) content
           (Layout1.selectedSource render) net2) = Throws e2 ->
    let run1 := Layout1.handleSendMessage toFixed2 render clock net1 meanwhile content st in
    let run2 := Layout1.handleSendMessage toFixed2 render clock net2 meanwhile content st in
    fst run1 = fst run2
    /\ toasts (snd run1) = toasts (snd run2)
    /\ filter is_fetch (snd run1) = filter is_fetch (snd run2).
Proof.
  intros toFixed2 render clock meanwhile content st net1 net2 e1 e2 H1 H2 run1 run2.
  pose proof (ask_throws_trace _ (fun data => data) content _ net1 e1 H1) as T1.
  pose proof (ask_throws_trace _ (fun data => data) content _ net2 e2 H2) as T2.
  subst run1 run2. unfold Layout1.handleSendMessage.
  destruct (JsString.is_empty (JsString.trim content) || Layout1.isLoading render);
    [now repeat split|].
  destruct (Services.ask json_value (fun data => data) content
              (Layout1.selectedSource render) net1) as [called1 outcome1].
  destruct (Services.ask json_value (fun data => data) content
              (Layout1.selectedSource render) net2) as [called2 outcome2].
  cbn [fst snd] in H1, H2, T1, T2. subst. now repeat split.
Qed.

Lemma Layout1_failures_look_alike_witness :
  fst (Layout1.handleSendMessage Concrete.toFixed2
         Concrete.Layout1_initial Concrete.clock1 Concrete.load_failed (fun st => st) "hi"
         Concrete.Layout1_initial)
  = fst (Layout1.handleSendMessage Concrete.toFixed2
           Concrete.Layout1_initial Concrete.clock1 (Resolves Concrete.http_500_boom)
           (fun st => st) "hi" Concrete.Layout1_initial).
Proof.
  exact (proj1 (Layout1_failures_look_alike
                  Concrete.toFixed2 Concrete.Layout1_initial Concrete.clock1
                  (fun st => st) "hi" Concrete.Layout1_initial
                  Concrete.load_failed (Resolves Concrete.http_500_boom) _ _
                  eq_refl eq_refl)).
Defined.

(** X14.  In the layout over [lib/api] the message of the error the client
    throws is what the user sees: it is the description of the toast, and
    the assistant message appended last contains it, with no sources and a
    confidence of 0. *)
Theorem Layout2_failure_shows_message :
  forall Number_toString ToNumber render clock net meanwhile content st error,
    snd (Lib.api_ask Number_toString json_value (fun data => data)
           (Layout2_request render content) net)
    = inl error ->
    let run := Layout2.handleSendMessage Number_toString ToNumber render clock net
                 meanwhile content st in
    (exists before reply text,
        Layout2.messages (fst run) = before ++ [reply]
        /\ Layout2.role reply = assistant
        /\ Layout2.content reply = Some (JString text)
        /\ JsString.includes (Lib.message error) text = true
        /\ Layout2.sources reply = Some (JArray [])
        /\ Layout2.confidence reply = Some (JsNumber.of_Z 0))
    /\ In (Toast {| title := "Connection Error";
                    description := Lib.message error;
                    variant := Some "destructive" |}) (snd run).
Proof.
  intros Number_toString ToNumber render clock net meanwhile content st error H run.
  subst run. split.
  - do 3 eexists. rewrite Layout2_send_messages, H. split; [reflexivity|].
    cbn [Layout2_reply Layout2_errorResponse Layout2.role Layout2.content
           Layout2.sources Layout2.confidence].
    repeat split.
    rewrite <- string_app_assoc. apply includes_app.
  - rewrite (Layout2_failure_effects _ _ _ _ _ _ _ _ error H).
    apply in_or_app. right. right. now left.
Qed.

Lemma Layout2_failure_shows_message_witness :
  snd (Lib.api_ask Concrete.integer_toString json_value (fun data => data)
         (Layout2_request Concrete.Layout2_initial "hi") (Rejects Concrete.failed_to_fetch))
  = inl Lib.network_error
  /\ In (Toast {| title := "Connection Error";
                  description := Lib.message Lib.network_error;
                  variant := Some "destructive" |})
        (snd (Layout2.handleSendMessage Concrete.integer_toString
                Concrete.ToNumber Concrete.Layout2_initial Concrete.clock2
                (Rejects Concrete.failed_to_fetch) (fun st => st) "hi"
                Concrete.Layout2_initial)).
Proof.
  split; [reflexivity|].
  exact (proj2 (Layout2_failure_shows_message
                  Concrete.integer_toString Concrete.ToNumber
                  Concrete.Layout2_initial Concrete.clock2
                  (Rejects Concrete.failed_to_fetch) (fun st => st) "hi"
                  Concrete.Layout2_initial Lib.network_error eq_refl)).
Defined.

(** X15.  Clearing the chat while a request is awaited does not cancel it:
    when the call ends, what the send appends after the call is appended to
    the emptied conversation, which then holds assistant messages only, the
    answer or the error text, and the error text after the answer when the
    toast of a first answer throws; the user message that asked for it is
    gone. *)
Theorem clear_while_pending_keeps_the_reply :
  forall toFixed2 render clock net content st,
    JsString.is_empty (JsString.trim content) || Layout1.isLoading render = false ->
    exists reply later,
      Layout1.messages
        (fst (Layout1.handleSendMessage toFixed2 render clock net
                (fun pending => fst (Layout1.handleClearChat pending)) content st))
      = reply :: later
      /\ Layout1.role reply = assistant
      /\ (later = [] \/ later = [Layout1_errorMessage clock])
      /\ (Layout1.messages render <> [] -> later = [])
      /\ Forall (fun m => Layout1.role m = assistant) (reply :: later).
Proof.
  intros toFixed2 render clock net content st Hguard.
  rewrite Layout1_send_messages by exact Hguard.
  cbn [Layout1.handleClearChat fst Layout1.messages Layout1.setMessages app].
  destruct (Layout1_replies_shape render clock
              (snd (Services.ask json_value (fun data => data) content
                      (Layout1.selectedSource render) net)))
    as (reply & later & Hreplies & Hrole & Hlater & Hlast).
  exists reply, later. split; [exact Hreplies|]. split; [exact Hrole|].
  split; [exact Hlater|]. split; [exact Hlast|].
  constructor; [exact Hrole|].
  destruct Hlater as [-> | ->]; repeat constructor.
Qed.

Lemma clear_while_pending_keeps_the_reply_witness :
  JsString.is_empty (JsString.trim "hi") || Layout1.isLoading Concrete.Layout1_initial = false
  /\ exists reply later,
       Layout1.messages
         (fst (Layout1.handleSendMessage Concrete.toFixed2
                 Concrete.Layout1_initial Concrete.clock1 Concrete.answered
                 (fun pending => fst (Layout1.handleClearChat pending)) "hi"
                 Concrete.Layout1_initial)) = reply :: later
       /\ Layout1.role reply = assistant.
Proof.
  split; [reflexivity|].
  destruct (clear_while_pending_keeps_the_reply
              Concrete.toFixed2 Concrete.Layout1_initial
              Concrete.clock1 Concrete.answered "hi" Concrete.Layout1_initial eq_refl)
    as (reply & later & Hmessages & Hrole & _).
  exists reply, later. split; [exact Hmessages | exact Hrole].
Defined.

(** X16.  The conversation id of the layout over [lib/api]: the request
    carries the id of the render when it has one that is truthy, and no
    [conversation_id] otherwise; a send never replaces an id the render
    has; with no id, a successful answer that names a truthy one makes it
    the conversation id, and a failed call leaves the id as it is. *)
Theorem Layout2_conversation_id :
  forall Number_toString ToNumber render clock net content st,
    let run := Layout2.handleSendMessage Number_toString ToNumber render clock net
                 (fun pending => pending) content st in
    let outcome := snd (Lib.api_ask Number_toString json_value (fun data => data)
                          (Layout2_request render content) net) in
    (exists sent fields,
        hd_error (snd run) = Some (Fetch sent)
        /\ body sent = Some (JObject fields)
        /\ lookup "conversation_id" fields
           = Layout2.present (Layout2.conversationId render))
    /\ (forall known,
           Layout2.present (Layout2.conversationId render) = Some known ->
           Layout2.conversationId (fst run) = Layout2.conversationId st)
    /\ (forall response named,
           Layout2.present (Layout2.conversationId render) = None ->
           outcome = inr response ->
           property "conversation_id" response = Some named ->
           truthy named = true ->
           Layout2.conversationId (fst run) = Some named)
    /\ (forall error,
           outcome = inl error ->
           Layout2.conversationId (fst run) = Layout2.conversationId st).
Proof.
  intros Number_toString ToNumber render clock net content st run outcome.
  subst run outcome.
  split; [|split; [|split]].
  - destruct (Layout2_send_trace Number_toString ToNumber render clock net
                (fun pending => pending) content st) as [done ->].
    rewrite api_ask_trace. cbn [app hd_error].
    do 2 eexists. split; [reflexivity|]. split; [reflexivity|].
    cbn [Layout2_request Types.question Types.source Types.conversation_id].
    destruct (String.eqb (Layout2.selectedSource render) "all");
      destruct (Layout2.present (Layout2.conversationId render)); reflexivity.
  - intros known Hknown. rewrite Layout2_send_conversationId. cbn zeta.
    rewrite Hknown.
    now destruct (snd (Lib.api_ask Number_toString json_value (fun data => data)
                         (Layout2_request render content) net)).
  - intros response named Hnone Hout Hid Htruthy.
    rewrite Layout2_send_conversationId. cbn zeta.
    rewrite Hout, Hnone, Hid. unfold Layout2.present. now rewrite Htruthy.
  - intros error Hout. rewrite Layout2_send_conversationId. cbn zeta.
    now rewrite Hout.
Qed.

(** X18.  [handleSourceChange] changes the selected source and nothing
    else, and sends no request; its toast says [applied] exactly for a
    source that is a string and not empty.  A send from the render that
    follows posts that source as [source_filter], the empty string
    included, and no [source_filter] when the source was removed. *)
Theorem handleSourceChange_sets_the_filter_sent :
  forall toFixed2 source st clock net meanwhile content,
    let changed := fst (Layout1.handleSourceChange source st) in
    JsString.is_empty (JsString.trim content) || Layout1.isLoading st = false ->
    Layout1.selectedSource changed = source
    /\ Layout1.messages changed = Layout1.messages st
    /\ Layout1.isLoading changed = Layout1.isLoading st
    /\ Layout1.isDarkMode changed = Layout1.isDarkMode st
    /\ Layout1.isSidebarOpen changed = Layout1.isSidebarOpen st
    /\ Layout1.isCommandPaletteOpen changed = Layout1.isCommandPaletteOpen st
    /\ (exists shown,
           snd (Layout1.handleSourceChange source st) = [Toast shown]
           /\ title shown
              = match source with
                | Some (String _ _) => "Source filter applied"
                | _ => "Source filter removed"
                end)
    /\ exists sent fields,
         hd_error (snd (Layout1.handleSendMessage toFixed2 changed clock net
                          meanwhile content changed)) = Some (Fetch sent)
         /\ body sent = Some (JObject fields)
         /\ lookup "source_filter" fields = option_map JString source
         /\ lookup "question" fields = Some (JString content).
Proof.
  intros toFixed2 source st clock net meanwhile content changed Hguard.
  assert (Hchanged : changed = Layout1.setSelectedSource source st).
  { subst changed. unfold Layout1.handleSourceChange.
    now destruct (Layout1_present source). }
  rewrite Hchanged. cbn [Layout1.setSelectedSource Layout1.selectedSource Layout1.messages
                           Layout1.isLoading Layout1.isDarkMode Layout1.isSidebarOpen
                           Layout1.isCommandPaletteOpen].
  do 6 (split; [reflexivity|]). split.
  - unfold Layout1.handleSourceChange, Layout1_present.
    destruct source as [[|c r]|]; eexists; split; reflexivity.
  - exists (Services.ask_request content source). eexists.
    split; [|split; [reflexivity|]].
    + now rewrite Layout1_send_fetch.
    + destruct source; split; reflexivity.
Qed.

Lemma handleSourceChange_sets_the_filter_sent_witness :
  JsString.is_empty (JsString.trim "hi") || Layout1.isLoading Concrete.Layout1_initial = false
  /\ Layout1.selectedSource
       (fst (Layout1.handleSourceChange (Some "react") Concrete.Layout1_initial))
     = Some "react".
Proof.
  split; [reflexivity|].
  exact (proj1 (handleSourceChange_sets_the_filter_sent
                  Concrete.toFixed2 (Some "react")
                  Concrete.Layout1_initial Concrete.clock1 Concrete.answered
                  (fun st => st) "hi" eq_refl)).
Defined.

(** X19.  The theme of the layout over [lib/api]: after [toggleDarkMode]
    the flag, the class [dark] of the root element and the stored item
    agree on the new mode; the effect of a later page load restores that
    mode from the stored item whatever the system prefers; and a second
    toggle brings the first mode back. *)
Theorem toggleDarkMode_persists :
  forall st browser fresh prefers leftover,
    let toggled := Layout2.toggleDarkMode st (st, browser) in
    let reloaded :=
      Layout2.initTheme
        (fresh, {| Layout2.theme_item := Layout2.theme_item (snd toggled);
                   Layout2.dark_class := leftover;
                   Layout2.prefers_dark := prefers |}) in
    let again := Layout2.toggleDarkMode (fst toggled) toggled in
    Layout2.isDarkMode (fst toggled) = negb (Layout2.isDarkMode st)
    /\ Layout2.dark_class (snd toggled) = Layout2.isDarkMode (fst toggled)
    /\ Layout2.theme_item (snd toggled)
       = Some (if Layout2.isDarkMode (fst toggled) then "dark" else "light")
    /\ Layout2.messages (fst toggled) = Layout2.messages st
    /\ Layout2.isDarkMode (fst reloaded) = Layout2.isDarkMode (fst toggled)
    /\ Layout2.dark_class (snd reloaded) = Layout2.isDarkMode (fst toggled)
    /\ Layout2.isDarkMode (fst again) = Layout2.isDarkMode st
    /\ Layout2.dark_class (snd again) = Layout2.isDarkMode st.
Proof.
  intros st browser fresh prefers leftover toggled reloaded again.
  subst toggled reloaded again. simpl.
  destruct (Layout2.isDarkMode st); repeat split.
Qed.

(** With nothing stored, or an empty item, the first load follows the
    system; with any other item it is dark exactly for [dark]. *)
Lemma initTheme_without_item st browser :
  Layout2.isDarkMode (fst (Layout2.initTheme (st, browser)))
  = match Layout2.theme_item browser with
    | None | Some EmptyString => Layout2.prefers_dark browser
    | Some saved => String.eqb saved "dark"
    end.
Proof.
  simpl. destruct (Layout2.theme_item browser) as [[|c r]|]; simpl; [reflexivity| |reflexivity].
  apply orb_false_r.
Qed.

Lemma to_int_proper (z : Z) :
  Z.to_int z <> Decimal.Pos Decimal.Nil /\ Z.to_int z <> Decimal.Neg Decimal.Nil.
Proof.
  destruct z; simpl; split; try discriminate.
  - intros E. injection E as E.
    pose proof (DecimalPos.Unsigned.of_to p) as H. rewrite E in H. discriminate H.
  - intros E. injection E as E.
    pose proof (DecimalPos.Unsigned.of_to p) as H. rewrite E in H. discriminate H.
Qed.

(** The decimal digits of two integers are the same only for the same
    integer. *)
Lemma of_Z_injective (a b : Z) : JsString.of_Z a = JsString.of_Z b -> a = b.
Proof.
  unfold JsString.of_Z. intros H.
  apply (f_equal NilZero.int_of_string) in H.
  rewrite !NilZero.isi in H by apply to_int_proper.
  injection H as H. apply (f_equal Z.of_int) in H. now rewrite !DecimalZ.of_to in H.
Qed.

Lemma msg_ids_differ (a b : Z) :
  (a <= b)%Z ->
  ("msg-" ++ JsString.of_Z (b + 1))%string <> ("msg-" ++ JsString.of_Z a)%string.
Proof.
  intros Hab E. cbn [append] in E. injection E as E.
  apply of_Z_injective in E. lia.
Qed.

(** X20.  The id of the user message differs from the id of every message
    the same send appends after it: in the layout over [lib/api] always,
    and in the layout over [services/api] when the clock did not go back
    between the send and the readings made after the call. *)
Theorem exchange_ids_differ :
  forall toFixed2 render1 clock1 st1
         Number_toString ToNumber render2 clock2 st2
         net content,
    JsString.is_empty (JsString.trim content) || Layout1.isLoading render1 = false ->
    (Layout1.now_user clock1 <= Layout1.now_reply clock1)%Z ->
    (Layout1.now_user clock1 <= Layout1.now_error clock1)%Z ->
    (exists u later,
        Layout1.messages
          (fst (Layout1.handleSendMessage toFixed2 render1 clock1 net
                  (fun st => st) content st1))
        = Layout1.messages st1 ++ u :: later
        /\ Layout1.role u = user
        /\ later <> []
        /\ Forall (fun m => Layout1.id m <> Layout1.id u) later)
    /\ (exists u later,
           Layout2.messages
             (fst (Layout2.handleSendMessage Number_toString ToNumber render2
                     clock2 net (fun st => st) content st2))
           = Layout2.messages st2 ++ u :: later
           /\ Layout2.role u = user
           /\ later <> []
           /\ Forall (fun m => Layout2.id m <> Layout2.id u) later).
Proof.
  intros toFixed2 render1 clock1 st1 Number_toString ToNumber render2 clock2 st2
         net content Hguard Hreply Herror.
  split.
  - rewrite Layout1_send_messages by exact Hguard.
    cbn [Layout1.messages Layout1.setMessages Layout1.setIsLoading].
    rewrite <- app_assoc.
    exists (Layout1_userMessage clock1 content). eexists.
    split; [reflexivity|]. split; [reflexivity|].
    cbn [Layout1_userMessage Layout1.id].
    destruct (snd (Services.ask json_value (fun data => data) content
                     (Layout1.selectedSource render1) net)) as [response|e].
    + destruct response; cbn [Layout1_replies];
        try destruct (Layout1_toast_throws render1 _);
        (split; [discriminate|]);
        repeat constructor; cbn [Layout1_aiMessage Layout1_errorMessage Layout1.id];
        now apply msg_ids_differ.
    + cbn [Layout1_replies]. split; [discriminate|].
      repeat constructor. now apply msg_ids_differ.
  - rewrite Layout2_send_messages.
    cbn [Layout2.messages Layout2.setMessages Layout2.setIsLoading].
    rewrite <- app_assoc.
    exists (Layout2_userMessage clock2 content). eexists.
    split; [reflexivity|]. split; [reflexivity|]. split; [discriminate|].
    repeat constructor.
    destruct (snd (Lib.api_ask Number_toString json_value (fun data => data)
                     (Layout2_request render2 content) net)) as [error|[]];
      cbn; intros E; discriminate E.
Qed.

Lemma exchange_ids_differ_witness :
  JsString.is_empty (JsString.trim "hi") || Layout1.isLoading Concrete.Layout1_initial = false
  /\ (Layout1.now_user Concrete.clock1 <= Layout1.now_reply Concrete.clock1)%Z
  /\ (Layout1.now_user Concrete.clock1 <= Layout1.now_error Concrete.clock1)%Z
  /\ exists u later,
       Layout1.messages
         (fst (Layout1.handleSendMessage Concrete.toFixed2 Concrete.Layout1_initial
                 Concrete.clock1 Concrete.answered_without_time (fun st => st) "hi"
                 Concrete.Layout1_initial))
       = [] ++ u :: later
       /\ Forall (fun m => Layout1.id m <> Layout1.id u) later.
Proof.
  split; [reflexivity|]. split; [discriminate|]. split; [discriminate|].
  refine (match proj1 (exchange_ids_differ
                         Concrete.toFixed2 Concrete.Layout1_initial Concrete.clock1
                         Concrete.Layout1_initial
                         Concrete.integer_toString Concrete.ToNumber
                         Concrete.Layout2_initial Concrete.clock2 Concrete.Layout2_initial
                         Concrete.answered_without_time "hi" eq_refl _ _)
          with
          | ex_intro _ u (ex_intro _ later (conj Hmessages (conj _ (conj _ Hids)))) =>
              ex_intro _ u (ex_intro _ later (conj Hmessages Hids))
          end); discriminate.
Defined.

(** X27.  A 2xx response whose body is [null] is shown as a failure by
    both layouts, although the call returned: no answer is appended, the
    message appended after the user message is the error text, and the
    toast is [Connection Error].  The layout over [lib/api] shows the
    default text of its [catch] block, [Failed to get response from AI
    assistant.], and keeps its conversation id. *)
Theorem null_body_is_shown_as_a_failure :
  forall toFixed2 render1 clock1 meanwhile1 st1
         Number_toString ToNumber render2 clock2 meanwhile2 st2
         content response,
    ok response = true ->
    json response = Returns JNull ->
    JsString.is_empty (JsString.trim content) || Layout1.isLoading render1 = false ->
    let run1 := Layout1.handleSendMessage toFixed2 render1 clock1 (Resolves response)
                  meanwhile1 content st1 in
    let pending1 :=
      meanwhile1 (Layout1.setIsLoading true
                    (Layout1.setMessages
                       (fun prev => prev ++ [Layout1_userMessage clock1 content]) st1)) in
    let run2 := Layout2.handleSendMessage Number_toString ToNumber render2 clock2
                  (Resolves response) meanwhile2 content st2 in
    let pending2 :=
      meanwhile2 (Layout2.setIsLoading true
                    (Layout2.setMessages
                       (fun prev => prev ++ [Layout2_userMessage clock2 content]) st2)) in
    Layout1.messages (fst run1)
    = Layout1.messages pending1 ++ [Layout1_errorMessage clock1]
    /\ toasts (snd run1)
       = [{| title := "Connection Error";
             description := "Failed to connect to the backend. Please check if the API server is running.";
             variant := Some "destructive" |}]
    /\ (exists reply text,
           Layout2.messages (fst run2) = Layout2.messages pending2 ++ [reply]
           /\ Layout2.role reply = assistant
           /\ Layout2.content reply = Some (JString text)
           /\ JsString.includes "Failed to get response from AI assistant." text = true
           /\ Layout2.sources reply = Some (JArray [])
           /\ Layout2.responseTime reply = None)
    /\ toasts (snd run2)
       = [{| title := "Connection Error";
             description := "Failed to get response from AI assistant.";
             variant := Some "destructive" |}]
    /\ Layout2.conversationId (fst run2) = Layout2.conversationId pending2.
Proof.
  intros toFixed2 render1 clock1 meanwhile1 st1
         Number_toString ToNumber render2 clock2 meanwhile2 st2
         content response Hok Hjson Hguard run1 pending1 run2 pending2.
  subst run1 pending1 run2 pending2.
  split; [|split; [|split; [|split]]].
  - rewrite Layout1_send_messages by exact Hguard.
    unfold Services.ask. rewrite Hok, Hjson.
    cbn [negb snd Layout1_replies]. reflexivity.
  - unfold Layout1.handleSendMessage. rewrite Hguard.
    unfold Services.ask. rewrite Hok, Hjson.
    cbn [negb get snd app toasts]. reflexivity.
  - do 2 eexists. rewrite Layout2_send_messages.
    unfold Lib.api_ask, Lib.apiRequest. rewrite Hok, Hjson.
    cbn [negb snd Layout2_reply Layout2_errorResponse Layout2.role Layout2.content
           Layout2.sources Layout2.responseTime].
    split; [reflexivity|]. split; [reflexivity|]. split; [reflexivity|].
    split; [|split; reflexivity].
    rewrite <- string_app_assoc.
    exact (includes_app "Failed to get response from AI assistant."
             (Layout2.cross_mark ++ " **Error**: ") _).
  - unfold Layout2.handleSendMessage, Lib.api_ask, Lib.apiRequest.
    rewrite Hok, Hjson. cbn [negb].
    destruct (Layout2.present (Layout2.conversationId render2));
      cbn [get snd app toasts]; reflexivity.
  - rewrite Layout2_send_conversationId. cbn zeta.
    unfold Lib.api_ask, Lib.apiRequest. rewrite Hok, Hjson.
    cbn [negb snd property Layout2.present].
    now destruct (Layout2.present (Layout2.conversationId render2)).
Qed.

Lemma null_body_is_shown_as_a_failure_witness :
  ok (response_of_text 200 "OK" "null") = true
  /\ json (response_of_text 200 "OK" "null") = Returns JNull
  /\ JsString.is_empty (JsString.trim "hi") || Layout1.isLoading Concrete.Layout1_initial = false
  /\ Layout1.messages
       (fst (Layout1.handleSendMessage Concrete.toFixed2 Concrete.Layout1_initial
               Concrete.clock1 Concrete.answered_null (fun st => st) "hi"
               Concrete.Layout1_initial))
     = [Layout1_userMessage Concrete.clock1 "hi"] ++ [Layout1_errorMessage Concrete.clock1].
Proof.
  split; [reflexivity|]. split; [reflexivity|]. split; [reflexivity|].
  exact (proj1 (null_body_is_shown_as_a_failure
                  Concrete.toFixed2 Concrete.Layout1_initial Concrete.clock1
                  (fun st => st) Concrete.Layout1_initial
                  Concrete.integer_toString Concrete.ToNumber
                  Concrete.Layout2_initial Concrete.clock2 (fun st => st)
                  Concrete.Layout2_initial
                  "hi" (response_of_text 200 "OK" "null") eq_refl eq_refl eq_refl)).
Defined.

(** ** The command palette *)

Lemma filteredActions_are_actions query item :
  In item (CommandPalette.filteredActions query) -> CommandPalette.isSearch item = false.
Proof.
  unfold CommandPalette.filteredActions. intros H.
  apply filter_In in H as [H _].
  repeat (destruct H as [<-|H]; [reflexivity|]). destruct H.
Qed.

Lemma item_at_In items index item :
  CommandPalette.item_at items index = Some item -> In item items.
Proof.
  unfold CommandPalette.item_at.
  destruct (index <? 0)%Z; [intros H; discriminate H|].
  apply nth_error_In.
Qed.

(** X21.  The arrow keys keep the selection on a listed item: from an
    index inside the list, whatever key is pressed, the index after it is
    inside the list. *)
Theorem CommandPalette_selection_stays_in_range :
  forall isOpen query selectedIndex key,
    (0 <= selectedIndex < Z.of_nat (List.length (CommandPalette.allItems query)))%Z ->
    (0 <= snd (fst (CommandPalette.handleKeyDown isOpen query selectedIndex key))
     < Z.of_nat (List.length (CommandPalette.allItems query)))%Z.
Proof.
  intros isOpen query selectedIndex key Hrange.
  unfold CommandPalette.handleKeyDown.
  destruct isOpen; [|exact Hrange]. cbn [negb].
  destruct (String.eqb key "ArrowDown"); [cbn [fst snd]; lia|].
  destruct (String.eqb key "ArrowUp"); [cbn [fst snd]; lia|].
  destruct (String.eqb key "Enter").
  - destruct (CommandPalette.item_at (CommandPalette.allItems query) selectedIndex) as [item|];
      [destruct (CommandPalette.isSearch item)|]; exact Hrange.
  - destruct (String.eqb key "Escape"); exact Hrange.
Qed.

Lemma CommandPalette_selection_stays_in_range_witness :
  (0 <= 9 < Z.of_nat (List.length (CommandPalette.allItems "")))%Z
  /\ (0 <= snd (fst (CommandPalette.handleKeyDown true "" 9 "ArrowDown"))
      < Z.of_nat (List.length (CommandPalette.allItems "")))%Z.
Proof.
  assert (Hrange : (0 <= 9 < Z.of_nat (List.length (CommandPalette.allItems "")))%Z).
  { split; [discriminate | reflexivity]. }
  split; [exact Hrange|].
  exact (CommandPalette_selection_stays_in_range true "" 9 "ArrowDown" Hrange).
Defined.

(** X22.  The palette calls [onSearch] only with one of the recent
    searches that the text typed matches, by key or by click; the text
    typed itself is never sent, and a quick action never searches. *)
Theorem CommandPalette_searches_only_recent_searches :
  forall isOpen query selectedIndex key index text,
    In (CommandPalette.Search text)
       (snd (CommandPalette.handleKeyDown isOpen query selectedIndex key)
          ++ CommandPalette.clickSearch query index
          ++ CommandPalette.clickAction query index) ->
    In text CommandPalette.recentSearches
    /\ CommandPalette.matches query text = true.
Proof.
  intros isOpen query selectedIndex key index text H.
  assert (Hlisted : In text (CommandPalette.filteredSearches query)).
  { apply in_app_or in H as [H|H]; [|apply in_app_or in H as [H|H]].
    - unfold CommandPalette.handleKeyDown in H.
      destruct isOpen; [|destruct H]. cbn [negb] in H.
      destruct (String.eqb key "ArrowDown"); [destruct H|].
      destruct (String.eqb key "ArrowUp"); [destruct H|].
      destruct (String.eqb key "Enter").
      + destruct (CommandPalette.item_at (CommandPalette.allItems query) selectedIndex)
          as [item|] eqn:Hitem; [|destruct H].
        destruct (CommandPalette.isSearch item) eqn:Hsearch; cbn [snd] in H.
        * destruct H as [H|[H|[]]]; [|discriminate H]. injection H as <-.
          apply item_at_In in Hitem. unfold CommandPalette.allItems in Hitem.
          apply in_app_or in Hitem as [Hitem|Hitem].
          -- apply filteredActions_are_actions in Hitem.
             rewrite Hitem in Hsearch. discriminate Hsearch.
          -- apply in_map_iff in Hitem as (search & <- & Hin). exact Hin.
        * destruct H as [H|[H|[]]]; discriminate H.
      + destruct (String.eqb key "Escape"); cbn [snd] in H;
          [destruct H as [H|[]]; discriminate H | destruct H].
    - unfold CommandPalette.clickSearch in H.
      destruct (nth_error (CommandPalette.filteredSearches query) index) as [search|] eqn:E;
        [|destruct H].
      destruct H as [H|[H|[]]]; [|discriminate H]. injection H as <-.
      now apply nth_error_In in E.
    - unfold CommandPalette.clickAction in H.
      destruct (nth_error (CommandPalette.filteredActions query) index); [|destruct H].
      destruct H as [H|[H|[]]]; discriminate H. }
  unfold CommandPalette.filteredSearches in Hlisted.
  now apply filter_In in Hlisted.
Qed.

Lemma CommandPalette_searches_only_recent_searches_witness :
  snd (CommandPalette.handleKeyDown true "django" 0 "Enter")
  = [CommandPalette.Search "Django ORM relationships"; CommandPalette.Close]
  /\ In "Django ORM relationships" CommandPalette.recentSearches.
Proof.
  split; [reflexivity|].
  apply (CommandPalette_searches_only_recent_searches
           true "django" 0 "Enter" 0 "Django ORM relationships").
  left. reflexivity.
Defined.

(** X23.  Enter with a selection that is on no listed item, as after the
    list shrank under it or emptied, does nothing: no search, no action,
    and the palette stays open. *)
Theorem CommandPalette_enter_off_the_list :
  forall query selectedIndex,
    (selectedIndex < 0
     \/ Z.of_nat (List.length (CommandPalette.allItems query)) <= selectedIndex)%Z ->
    CommandPalette.handleKeyDown true query selectedIndex "Enter"
    = (true, selectedIndex, []).
Proof.
  intros query selectedIndex Hout.
  unfold CommandPalette.handleKeyDown. cbn [negb String.eqb Ascii.eqb Bool.eqb].
  replace (CommandPalette.item_at (CommandPalette.allItems query) selectedIndex)
    with (@None CommandPalette.Item); [reflexivity|].
  unfold CommandPalette.item_at.
  destruct (selectedIndex <? 0)%Z eqn:Hneg; [reflexivity|].
  symmetry. apply nth_error_None. apply Z.ltb_ge in Hneg. lia.
Qed.

Lemma CommandPalette_enter_off_the_list_witness :
  CommandPalette.allItems "zzz" = []
  /\ CommandPalette.handleKeyDown true "zzz" 0 "Enter" = (true, 0%Z, []).
Proof.
  split; [reflexivity|].
  apply (CommandPalette_enter_off_the_list "zzz" 0).
  right. discriminate.
Defined.

Lemma lower_char_idempotent (c : ascii) :
  JsCase.lower_char (JsCase.lower_char c) = JsCase.lower_char c.
Proof. destruct c as [[] [] [] [] [] [] [] []]; reflexivity. Qed.

Lemma toLowerCase_idempotent (s : string) :
  JsCase.toLowerCase (JsCase.toLowerCase s) = JsCase.toLowerCase s.
Proof.
  induction s as [|c s IH]; [reflexivity|].
  simpl. now rewrite lower_char_idempotent, IH.
Qed.

Lemma filter_same (A : Type) (f g : A -> bool) (l : list A) :
  (forall x, f x = g x) -> filter f l = filter g l.
Proof.
  intros H. induction l as [|x l IH]; [reflexivity|].
  simpl. now rewrite H, IH.
Qed.

(** X24.  The list of the palette does not depend on the letter case of
    the text typed: two texts that differ in case only list the same items,
    so a text and its lower case do.  Every item listed contains the text
    in its title or its description, letter case aside. *)
Theorem CommandPalette_ignores_letter_case :
  forall query,
    (forall other,
        JsCase.toLowerCase other = JsCase.toLowerCase query ->
        CommandPalette.allItems other = CommandPalette.allItems query)
    /\ CommandPalette.allItems (JsCase.toLowerCase query) = CommandPalette.allItems query
    /\ forall item,
         In item (CommandPalette.allItems query) ->
         (CommandPalette.matches query (CommandPalette.title item)
          || CommandPalette.matches query (CommandPalette.description item)) = true.
Proof.
  intros query.
  assert (Hsame : forall other,
             JsCase.toLowerCase other = JsCase.toLowerCase query ->
             CommandPalette.allItems other = CommandPalette.allItems query).
  { intros other H.
    unfold CommandPalette.allItems, CommandPalette.filteredActions,
      CommandPalette.filteredSearches.
    f_equal; [|f_equal]; apply filter_same; intros x;
      unfold CommandPalette.matches; now rewrite H. }
  split; [exact Hsame|]. split; [apply Hsame, toLowerCase_idempotent|].
  intros item H. unfold CommandPalette.allItems in H.
  apply in_app_or in H as [H|H].
  - unfold CommandPalette.filteredActions in H. now apply filter_In in H.
  - apply in_map_iff in H as (search & <- & H).
    unfold CommandPalette.filteredSearches in H. apply filter_In in H as [_ H].
    cbn [CommandPalette.search_item CommandPalette.title]. now rewrite H.
Qed.

(** ** The code blocks of a message *)

Lemma word_run_all_word (s : string) : all_word (ChatMessage.word_run s) = true.
Proof.
  induction s as [|c s IH]; [reflexivity|].
  simpl. destruct (ChatMessage.is_word c) eqn:W; [|reflexivity].
  simpl. now rewrite W.
Qed.

Lemma word_run_of_word (s : string) : all_word s = true -> ChatMessage.word_run s = s.
Proof.
  induction s as [|c s IH]; [reflexivity|].
  simpl. destruct (ChatMessage.is_word c); [|intros H; discriminate H].
  intros H. now rewrite IH.
Qed.

Lemma exec_language_word (text word : string) :
  ChatMessage.exec_language text = Some word ->
  word <> EmptyString /\ all_word word = true.
Proof.
  induction text as [|c rest IH]; [intros H; discriminate H|].
  cbn [ChatMessage.exec_language].
  destruct (String.prefix "language-" (String c rest)); [|exact IH].
  destruct (ChatMessage.word_run (JsString.slice 9 (String c rest))) as [|d r] eqn:E;
    [exact IH|].
  intros H. injection H as <-. split; [discriminate|].
  rewrite <- E. apply word_run_all_word.
Qed.

(** X25.  The language a code block is labelled and highlighted with is
    never empty and is made of word characters only, whatever the class
    name; it is [text] when there is no class name, and for a class name
    [language-] followed by a word it is that word. *)
Theorem ChatMessage_language_is_a_word :
  forall className,
    ChatMessage.language className <> EmptyString
    /\ all_word (ChatMessage.language className) = true
    /\ ChatMessage.language None = "text"
    /\ forall word,
         word <> EmptyString -> all_word word = true ->
         ChatMessage.language (Some ("language-" ++ word)%string) = word.
Proof.
  intros className. unfold ChatMessage.language.
  split; [|split; [|split; [reflexivity|]]].
  - destruct (ChatMessage.exec_language _) as [word|] eqn:E; [|discriminate].
    now apply exec_language_word in E.
  - destruct (ChatMessage.exec_language _) as [word|] eqn:E; [|reflexivity].
    now apply exec_language_word in E.
  - intros word Hne Hword.
    change ("language-" ++ word)%string
      with (String "l" ("anguage-" ++ word)).
    cbn [ChatMessage.exec_language].
    change (String "l" ("anguage-" ++ word)) with ("language-" ++ word)%string.
    rewrite prefix_app.
    change (JsString.slice 9 ("language-" ++ word)) with word.
    rewrite word_run_of_word by exact Hword.
    destruct word; [now destruct Hne | reflexivity].
Qed.

(** X26.  [codeString] takes at most one line feed off the end: a text
    that ends with a line feed is the code followed by that line feed, and
    any other text is the code itself. *)
Theorem ChatMessage_codeString_strips_one_newline :
  forall text,
    text = (ChatMessage.codeString text
              ++ if ends_with_newline text then String (ascii_of_nat 10) EmptyString
                 else EmptyString)%string.
Proof.
  induction text as [|c rest IH]; [reflexivity|].
  destruct rest as [|d rest'].
  - simpl. destruct (Ascii.eqb c (ascii_of_nat 10)) eqn:E; [|reflexivity].
    apply Ascii.eqb_eq in E. now subst c.
  - change (ChatMessage.codeString (String c (String d rest')))
      with (String c (ChatMessage.codeString (String d rest'))).
    change (ends_with_newline (String c (String d rest')))
      with (ends_with_newline (String d rest')).
    set (tail := if ends_with_newline (String d rest')
                 then String (ascii_of_nat 10) EmptyString else EmptyString) in *.
    change (String c (ChatMessage.codeString (String d rest')) ++ tail)%string
      with (String c (ChatMessage.codeString (String d rest') ++ tail)).
    f_equal. exact IH.
Qed.
